(** * mapchete: resolution of a job description into an execution plan

    A shallow embedding of
      - [src/mapchete/config_utils.py]   ([get_clean_configuration]) and
      - [src/mapchete/cli/default/pyramid.py]
        ([DTYPE_RANGES], [raster2pyramid], [_get_zoom]),
    followed by the properties of the specification that concern them.

    Python integers are unbounded and are modelled by [Z]; Python floats are
    IEEE binary64 values and are modelled by primitive floats; dictionaries
    are [gmap]s; a raised exception is the left injection of a sum. *)

From Stdlib Require Import ZArith QArith Qminmax Floats Ascii String Lia.
From stdpp Require Import gmap strings list.

Set Warnings "-inexact-float".
#[local] Open Scope Z_scope.

(** ** Python values, exceptions and control *)

Module Py.

(** The exceptions the two modules raise, or let the interpreter raise.
    [UnpackError n] is the [ValueError] of a tuple assignment whose right
    hand side holds [n] values instead of the expected number. *)
Inductive PyException : Type :=
| IOError (msg : string)
| Exception_ (msg : string)
| ValueError (msg : string)
| UnpackError (given : nat)
| TypeError (msg : string)
| KeyError (key : string)
| IndexError (msg : string)
| UnboundLocalError (name : string).

Definition Result (A : Type) : Type := PyException + A.

Definition ret {A : Type} (a : A) : Result A := inr a.
Definition raise {A : Type} (e : PyException) : Result A := inl e.
Definition bind {A B : Type} (c : Result A) (k : A -> Result B) : Result B :=
  match c with
  | inl e => inl e
  | inr a => k a
  end.

(** A number: [int] (and [long]) or [float]. *)
Inductive PyNum : Type :=
| PyInt (z : Z)
| PyFloat (f : float).

(** Truth value of an optional sequence: [None] and the empty sequence are
    false. *)
Definition truthy {A : Type} (o : option (list A)) : bool :=
  match o with
  | Some (_ :: _) => true
  | _ => false
  end.

(** Truth value of an optional string: [None] and [""] are false. *)
Definition truthy_str (o : option string) : bool :=
  match o with
  | Some s => negb (String.eqb s "")
  | None => false
  end.

(** Truth value of an optional number: [None], [0] and [0.0] are false. *)
Definition truthy_num (o : option PyNum) : bool :=
  match o with
  | Some (PyInt z) => negb (z =? 0)
  | Some (PyFloat f) => negb (PrimFloat.eqb f 0%float)
  | None => false
  end.

(** The elements of an optional sequence ([len] and indexing are taken on
    it once its truth value is known). *)
Definition seq_of {A : Type} (o : option (list A)) : list A :=
  match o with
  | Some l => l
  | None => []
  end.

(** [range(lo, hi)] of Python 2: the list [lo, lo+1, ..., hi-1]. *)
Definition py_range (lo hi : Z) : list Z :=
  map (fun i : nat => lo + Z.of_nat i) (seq 0 (Z.to_nat (hi - lo))).

(** [os.path.join(a, b)] on POSIX paths. *)
Definition ends_with_slash (a : string) : bool :=
  match rev (String.list_ascii_of_string a) with
  | c :: _ => Ascii.eqb c "/"%char
  | [] => false
  end.

Definition path_join (a b : string) : string :=
  match b with
  | String c _ =>
      if Ascii.eqb c "/"%char then b
      else if String.eqb a "" || ends_with_slash a then a +:+ b
      else a +:+ "/" +:+ b
  | EmptyString =>
      if String.eqb a "" || ends_with_slash a then a else a +:+ "/"
  end.

End Py.

Export Py.

Notation "x <- c ;; k" := (bind c (fun x => k))
  (at level 100, c at next level, right associativity).

(** ** The geometry library (shapely)

    [get_clean_configuration] builds polygons from corner coordinates and
    combines them with [cascaded_union] and [intersection]; it never computes
    on a coordinate. The coordinate type and the geometry operations are
    therefore an interface. *)

Class Shapely (coord Geometry : Type) : Type := {
  (** [Polygon(points)]; [Polygon()] is [Polygon []]. *)
  Polygon : list (coord * coord) -> Geometry;
  (** [shapely.ops.cascaded_union] *)
  cascaded_union : list Geometry -> Geometry;
  (** [a.intersection(b)] *)
  intersection : Geometry -> Geometry -> Geometry;
  (** [g.geom_type] *)
  geom_type : Geometry -> string;
  (** [g.is_empty] *)
  is_empty : Geometry -> bool
}.

(** ** [src/mapchete/config_utils.py] *)

Module ConfigUtils.

Section Configuration.

Context {coord Geometry : Type} `{Shapely coord Geometry}.

(** The parsed job description, [raw_config]: the keys the function
    reads, each absent or present. *)
Record RawConfig : Type := {
  process_file : option string;
  process_zoom : option Z;
  process_minzoom : option Z;
  process_maxzoom : option Z;
  process_bounds : option (list coord)
}.

(** What the function reads from outside: the file system, the YAML
    parser, the configuration engine ([mapchete.MapcheteConfig]) and the
    raster library ([rasterio]). [raster_bounds] is [None] when the
    raster cannot be opened. *)
Record World : Type := {
  isfile : string -> bool;
  yaml_load : string -> RawConfig;
  dirname_realpath : string -> string;
  is_valid_at_zoom : Z -> bool;
  explain_validity_at_zoom : Z -> string;
  at_zoom_input_files : Z -> list (string * option string);
  raster_bounds : string -> option (coord * coord * coord * coord)
}.

(** The returned dictionary [out_config]. *)
Record OutConfig : Type := {
  zoom_levels : list Z;
  process_area : gmap Z Geometry
}.

(** Lines 64-74: the zoom request of the job description. The single
    field [process_zoom] is read first; the pair of fields only when it
    is missing. *)
Definition config_zoom (raw_config : RawConfig) : option (list Z) :=
  match process_zoom raw_config with
  | Some config_zoom => Some [config_zoom]
  | None =>
      match process_minzoom raw_config, process_maxzoom raw_config with
      | Some minzoom, Some maxzoom => Some [minzoom; maxzoom]
      | _, _ => None
      end
  end.

(** Lines 75-100: the value of [zoom_levels]. *)
Definition resolve_zoom_levels (raw_config : RawConfig)
    (zoom_parameter : option (list Z)) : Result (list Z) :=
  let zoom := config_zoom raw_config in
  let zoom := if truthy zoom_parameter then zoom_parameter else zoom in
  if negb (truthy zoom) then raise (Exception_ "No zoom level(s) provided.")
  else
    let zoom := seq_of zoom in
    if (length zoom =? 1)%nat then ret zoom
    else if (length zoom =? 2)%nat then
      if forallb (fun i => 0 <=? i) zoom then
        let z0 := nth 0 zoom 0 in
        let z1 := nth 1 zoom 0 in
        let '(minzoom, maxzoom) := if z0 <? z1 then (z0, z1) else (z1, z0) in
        ret (py_range minzoom (maxzoom + 1))
      else raise (ValueError "Zoom levels must be greater 0.")
    else raise (ValueError "Zoom level parameter requires one or two value(s).").

Context (w : World).

(** Lines 105-110. The loop variable is called [zoom]; Python keeps it
    bound after the loop, so the function returns its last value
    ([None] while the loop body has not run). *)
Fixpoint check_validity (zoom_levels : list Z) (zoom : option Z)
    : Result (option Z) :=
  match zoom_levels with
  | [] => ret zoom
  | z :: rest =>
      if is_valid_at_zoom w z then check_validity rest (Some z)
      else raise (Exception_ (explain_validity_at_zoom w z))
  end.

(** Lines 112-125: the effective bounds. *)
Definition resolve_bounds (raw_config : RawConfig)
    (bounds_parameter : option (list coord)) : Result (option (list coord)) :=
  let bounds := process_bounds raw_config in
  if truthy bounds_parameter then
    if (length (seq_of bounds_parameter) =? 4)%nat then ret bounds_parameter
    else raise (ValueError "Invalid number of process bounds.")
  else ret bounds.

(** The rectangle with corners upper left, upper right, lower right,
    lower left (lines 137-142 and 146-151). *)
Definition bbox_polygon (left_ bottom right_ top : coord) : Geometry :=
  let ul := (left_, top) in
  let ur := (right_, top) in
  let lr := (right_, bottom) in
  let ll := (left_, bottom) in
  Polygon [ul; ur; lr; ll].

(** Lines 131-142: one bounding box per input file whose path is set. *)
Fixpoint collect_bboxes (config_dir : string)
    (input_files : list (string * option string))
    (bboxes : list Geometry) : Result (list Geometry) :=
  match input_files with
  | [] => ret bboxes
  | (input_file, rel_path) :: rest =>
      if truthy_str rel_path then
        let abs_path := path_join config_dir (default "" rel_path) in
        match raster_bounds w abs_path with
        | None => raise (IOError abs_path)
        | Some (left_, bottom, right_, top) =>
            collect_bboxes config_dir rest
              (bboxes ++ [bbox_polygon left_ bottom right_ top])
        end
      else collect_bboxes config_dir rest bboxes
  end.

Definition supported_geom_types : list string :=
  ["Polygon"; "MultiPolygon"; "GeometryCollection"].

(** Lines 130-162: the body of the loop over [zoom_level]. The input
    files are looked up with the variable [zoom], which the loop of
    line 105 left bound, not with [zoom_level]. The body runs only when
    [zoom_levels] is not empty, and then the loop of line 105 has bound
    [zoom] to a zoom level: the [None] branch stands for a call of
    [at_zoom] on the zoom request itself and is never reached (see
    [ProcessArea.get_clean_configuration_loop]). *)
Definition out_area_at (mapchete_file : string) (zoom : option Z)
    (bounds : option (list coord)) : Result Geometry :=
  match zoom with
  | None => raise (TypeError "zoom is not a zoom level")
  | Some zoom =>
      let input_files := at_zoom_input_files w zoom in
      let config_dir := dirname_realpath w mapchete_file in
      bboxes <- collect_bboxes config_dir input_files [] ;;
      let files_area := cascaded_union bboxes in
      if truthy bounds then
        match seq_of bounds with
        | [left_; bottom; right_; top] =>
            let user_bbox := bbox_polygon left_ bottom right_ top in
            let out_area := intersection files_area user_bbox in
            if bool_decide (geom_type out_area ∈ supported_geom_types)
            then ret out_area
            else ret (Polygon [])
        | other => raise (UnpackError (length other))
        end
      else ret files_area
  end.

(** Lines 127-163: the loop filling [bounds_per_zoom]. *)
Fixpoint area_loop (mapchete_file : string) (zoom_levels : list Z)
    (zoom : option Z) (bounds : option (list coord))
    (bounds_per_zoom : gmap Z Geometry) : Result (gmap Z Geometry) :=
  match zoom_levels with
  | [] => ret bounds_per_zoom
  | zoom_level :: rest =>
      out_area <- out_area_at mapchete_file zoom bounds ;;
      area_loop mapchete_file rest zoom bounds
        (<[zoom_level := out_area]> bounds_per_zoom)
  end.

(** Lines 12-170. *)
Definition get_clean_configuration (mapchete_file : string)
    (zoom : option (list Z)) (bounds : option (list coord))
    (output_path output_format : option string) : Result OutConfig :=
  if negb (isfile w mapchete_file)
  then raise (IOError (mapchete_file +:+ " is not available"))
  else
    let raw_config := yaml_load w mapchete_file in
    match process_file raw_config with
    | None => raise (Exception_ "'process_file' parameter is missing")
    | Some rel_path =>
        let config_dir := dirname_realpath w mapchete_file in
        let mapchete_process_file := path_join config_dir rel_path in
        if negb (isfile w mapchete_process_file)
        then raise (IOError (mapchete_process_file +:+ " is not available"))
        else
          zoom_levels <- resolve_zoom_levels raw_config zoom ;;
          zoom_var <- check_validity zoom_levels None ;;
          bounds <- resolve_bounds raw_config bounds ;;
          bounds_per_zoom <-
            area_loop mapchete_file zoom_levels zoom_var bounds ∅ ;;
          ret {| zoom_levels := zoom_levels;
                 process_area := bounds_per_zoom |}
    end.

(** The paths the loop of lines 132-142 opens, in the order of the input
    table: those of the input files whose path is set. *)
Definition set_paths (input_files : list (string * option string))
    : list string :=
  flat_map
    (fun entry : string * option string =>
       if truthy_str (snd entry) then [default "" (snd entry)] else [])
    input_files.

(** The polygon of a raster's bounds (lines 137-142). *)
Definition bounds_polygon (b : coord * coord * coord * coord) : Geometry :=
  let '(left_, bottom, right_, top) := b in
  bbox_polygon left_ bottom right_ top.


End Configuration.

Arguments RawConfig : clear implicits.
Arguments World : clear implicits.
Arguments OutConfig : clear implicits.

End ConfigUtils.

(** ** [src/mapchete/cli/default/pyramid.py] *)

Module Pyramid.

(** Lines 17-25. *)
Definition DTYPE_RANGES : gmap string (PyNum * PyNum) :=
  list_to_map [
    ("uint8", (PyInt 0, PyInt 255));
    ("uint16", (PyInt 0, PyInt 65535));
    ("int16", (PyInt (-32768), PyInt 32767));
    ("uint32", (PyInt 0, PyInt 4294967295));
    ("int32", (PyInt (-2147483648), PyInt 2147483647));
    ("float32", (PyFloat (-3.4028235e+38)%float, PyFloat 3.4028235e+38%float));
    ("float64", (PyFloat (-1.7976931348623157e+308)%float,
                 PyFloat 1.7976931348623157e+308%float))
  ].

(** One band of an opened raster, as far as the module reads it: its
    data type, its nodata value, and the minimum and maximum of the array
    [input_raster.read(index)] returns. *)
Record Band : Type := {
  band_dtype : string;
  band_nodataval : option PyNum;
  band_min : PyNum;
  band_max : PyNum
}.

(** An opened raster is its sequence of bands. *)
Definition Raster : Type := list Band.

Definition count (input_raster : Raster) : Z := Z.of_nat (length input_raster).
Definition dtypes (input_raster : Raster) : list string :=
  map band_dtype input_raster.
Definition nodatavals (input_raster : Raster) : list (option PyNum) :=
  map band_nodataval input_raster.

(** [input_raster.read(index)]: bands are numbered from 1. *)
Definition read (input_raster : Raster) (index : Z) : Result Band :=
  if index <? 1 then raise (IndexError "band index out of range")
  else
    match input_raster !! Z.to_nat (index - 1) with
    | Some band => ret band
    | None => raise (IndexError "band index out of range")
    end.

(** [t[0]] on a tuple. *)
Definition item0 {A : Type} (t : list A) : Result A :=
  match t with
  | x :: _ => ret x
  | [] => raise (IndexError "tuple index out of range")
  end.

(** The [options] dictionary of [raster2pyramid]. *)
Record Options : Type := {
  pyramid_type : string;
  scale_method : option string;
  output_format : option string;
  resampling : option string;
  zoom : option (list Z);
  bounds : option (list PyNum);
  overwrite : bool
}.

(** What the module reads from outside: the raster library, the zoom
    estimator of [mapchete.io] and the working directory. *)
Record World : Type := {
  rasterio_open : string -> option Raster;
  get_best_zoom_level : string -> string -> Z;
  getcwd : string
}.

Definition ScalePair : Type := option PyNum * option PyNum.

(** The [config] dictionary built at lines 104-123. *)
Record Config : Type := {
  process : string;
  output_path : string;
  output_format_ : option string;
  output_bands : Z;
  output_dtype : string;
  pyramid_pixelbuffer : Z;
  pyramid_grid : string;
  scale_method_ : option string;
  scales_minmax : list ScalePair;
  input_raster_ : string;
  config_dir : string;
  zoom_levels_min : Z;
  zoom_levels_max : Z;
  nodataval : PyNum;
  resampling_ : option string;
  bounds_ : option (list PyNum);
  baselevel_zoom : Z;
  baselevel_resampling : option string;
  mode : string
}.

(** The value of [output_bands] after lines 78 and 83-84: the band count of
    the raster, or 3 for a PNG of more than three bands. It names, in the
    statements below, the expression [raster2pyramid] computes. *)
Definition capped_band_count (output_format : option string)
    (input_raster : Raster) : Z :=
  if bool_decide (output_format = Some "PNG") && (3 <? count input_raster)
  then 3 else count input_raster.

(** Lines 134-149. A local variable that no branch assigned is [None];
    reading it for the [return] raises [UnboundLocalError]. *)
Definition _get_zoom (w : World) (zoom : option (list Z))
    (input_raster pyramid_type : string) : Result (Z * Z) :=
  let '(minzoom, maxzoom) :=
    if negb (truthy zoom) then
      (Some 1, Some (get_best_zoom_level w input_raster pyramid_type))
    else
      let zoom := seq_of zoom in
      if (length zoom =? 1)%nat then
        (Some (nth 0 zoom 0), Some (nth 0 zoom 0))
      else if (length zoom =? 2)%nat then
        if nth 0 zoom 0 <? nth 1 zoom 0
        then (Some (nth 0 zoom 0), Some (nth 1 zoom 0))
        else (Some (nth 1 zoom 0), Some (nth 0 zoom 0))
      else (None, None) in
  match minzoom, maxzoom with
  | None, _ => raise (UnboundLocalError "minzoom")
  | Some _, None => raise (UnboundLocalError "maxzoom")
  | Some minzoom, Some maxzoom => ret (minzoom, maxzoom)
  end.

(** [for index in indexes: scales_minmax += (body(index), )] *)
Fixpoint scale_loop (indexes : list Z) (body : Z -> Result ScalePair)
    (scales_minmax : list ScalePair) : Result (list ScalePair) :=
  match indexes with
  | [] => ret scales_minmax
  | index :: rest =>
      pair <- body index ;;
      scale_loop rest body (scales_minmax ++ [pair])
  end.

(** Lines 86-96: the pairs the requested scale method asks for. *)
Definition requested_scales (input_raster : Raster) (input_dtype : string)
    (output_bands : Z) (scale_method : option string)
    : Result (list ScalePair) :=
  if bool_decide (scale_method = Some "dtype_scale") then
    scale_loop (py_range 1 (output_bands + 1))
      (fun index =>
         match DTYPE_RANGES !! input_dtype with
         | Some (lo, hi) => ret (Some lo, Some hi)
         | None => raise (KeyError input_dtype)
         end) []
  else if bool_decide (scale_method = Some "minmax_scale") then
    scale_loop (py_range 1 (output_bands + 1))
      (fun index =>
         band <- read input_raster index ;;
         ret (Some (band_min band), Some (band_max band))) []
  else if bool_decide (scale_method = Some "crop") then
    scale_loop (py_range 1 (output_bands + 1))
      (fun index => ret (Some (PyInt 0), Some (PyInt 255))) []
  else ret [].

(** Lines 97-101: an 8-bit input is not rescaled. *)
Definition uint8_override (input_dtype : string) (output_bands : Z)
    (scale_method : option string) (scales_minmax : list ScalePair)
    : Result (option string * list ScalePair) :=
  if String.eqb input_dtype "uint8" then
    scales_minmax <-
      scale_loop (py_range 1 (output_bands + 1))
        (fun index => ret (None, None)) [] ;;
    ret (None, scales_minmax)
  else ret (scale_method, scales_minmax).

(** Lines 65-123: the configuration [raster2pyramid] hands, with the zoom
    request [[minzoom, maxzoom]], to the process it opens. *)
Definition raster2pyramid (w : World) (input_file output_dir : string)
    (options : Options) : Result Config :=
  let pyramid_type := pyramid_type options in
  let scale_method := scale_method options in
  let output_format := output_format options in
  let resampling := resampling options in
  let zoom := zoom options in
  let bounds := bounds options in
  let mode := if overwrite options then "overwrite" else "continue" in
  zooms <- _get_zoom w zoom input_file pyramid_type ;;
  match rasterio_open w input_file with
  | None => raise (IOError input_file)
  | Some input_raster =>
      let output_bands := count input_raster in
      input_dtype <- item0 (dtypes input_raster) ;;
      output_dtype <- item0 (dtypes input_raster) ;;
      nodataval <- item0 (nodatavals input_raster) ;;
      let nodataval :=
        if truthy_num nodataval then default (PyInt 0) nodataval
        else PyInt 0 in
      let capped :=
        bool_decide (output_format = Some "PNG") && (3 <? output_bands) in
      let output_bands := if capped then 3 else output_bands in
      let output_dtype := if capped then "uint8" else output_dtype in
      scales_minmax <-
        requested_scales input_raster input_dtype output_bands scale_method ;;
      plan <-
        uint8_override input_dtype output_bands scale_method scales_minmax ;;
      ret {| process := "mapchete.processes.pyramid.tilify";
             output_path := output_dir;
             output_format_ := output_format;
             output_bands := output_bands;
             output_dtype := output_dtype;
             pyramid_pixelbuffer := 5;
             pyramid_grid := pyramid_type;
             scale_method_ := fst plan;
             scales_minmax := snd plan;
             input_raster_ := input_file;
             config_dir := getcwd w;
             zoom_levels_min := fst zooms;
             zoom_levels_max := snd zooms;
             nodataval := nodataval;
             resampling_ := resampling;
             bounds_ := bounds;
             baselevel_zoom := snd zooms;
             baselevel_resampling := resampling;
             mode := mode |}
  end.

(** Lines 39-62: the command. Its decorators (the command line parser)
    supply the arguments; [debug] is not used. *)
Definition pyramid (w : World) (input_raster output_dir : string)
    (pyramid_type : string) (output_format resampling_method : option string)
    (scale_method : option string) (zoom : option (list Z))
    (bounds : option (list PyNum)) (overwrite debug : bool) : Result Config :=
  let bounds := if truthy bounds then bounds else None in
  let options :=
    {| Pyramid.pyramid_type := pyramid_type;
       Pyramid.scale_method := scale_method;
       Pyramid.output_format := output_format;
       Pyramid.resampling := resampling_method;
       Pyramid.zoom := zoom;
       Pyramid.bounds := bounds;
       Pyramid.overwrite := overwrite |} in
  raster2pyramid w input_raster output_dir options.

End Pyramid.

(** ** The zoom resolution order in the words of the specification *)

Module Spec.

(** Section 4.1 of the specification, clause by clause, first match first:
    (a) a request of two values, (b) a request of one value, (c) a job
    description with both a minimum and a maximum field, (d) a job
    description with a single zoom field, (e) failure. This definition is
    compared with [ConfigUtils.resolve_zoom_levels]; it is not taken from
    the code. *)
Definition ZoomResolver {coord : Type} (job : ConfigUtils.RawConfig coord)
    (request : option (list Z)) : Result (list Z) :=
  match request with
  | Some [a; b] => ret (py_range (Z.min a b) (Z.max a b + 1))
  | Some [a] => ret [a]
  | _ =>
      match ConfigUtils.process_minzoom job, ConfigUtils.process_maxzoom job with
      | Some lo, Some hi => ret (py_range (Z.min lo hi) (Z.max lo hi + 1))
      | _, _ =>
          match ConfigUtils.process_zoom job with
          | Some z => ret [z]
          | None => raise (Exception_ "No zoom level(s) provided.")
          end
      end
  end.

End Spec.

(** ** An instance of the geometry interface

    Finite unions of axis-parallel boxes with rational corners. The
    interface can be run on it: a union keeps the boxes of its arguments, an
    intersection keeps the pairwise overlaps, and two boxes that only touch
    overlap in a box without area, which is a line or a point. *)

Module Boxes.

Record Box : Type := {
  xmin : Q;
  ymin : Q;
  xmax : Q;
  ymax : Q
}.

Definition grow (b : Box) (p : Q * Q) : Box :=
  {| xmin := Qmin (xmin b) (fst p);
     ymin := Qmin (ymin b) (snd p);
     xmax := Qmax (xmax b) (fst p);
     ymax := Qmax (ymax b) (snd p) |}.

(** The box spanned by the points; no point, no box. *)
Definition of_points (points : list (Q * Q)) : list Box :=
  match points with
  | [] => []
  | p :: rest =>
      [fold_left grow rest
         {| xmin := fst p; ymin := snd p; xmax := fst p; ymax := snd p |}]
  end.

Definition overlap (a b : Box) : list Box :=
  let c := {| xmin := Qmax (xmin a) (xmin b);
              ymin := Qmax (ymin a) (ymin b);
              xmax := Qmin (xmax a) (xmax b);
              ymax := Qmin (ymax a) (ymax b) |} in
  if Qle_bool (xmin c) (xmax c) && Qle_bool (ymin c) (ymax c) then [c] else [].

Definition inter (g h : list Box) : list Box :=
  flat_map (fun a => flat_map (overlap a) h) g.

Definition flat (b : Box) : bool :=
  Qeq_bool (xmin b) (xmax b) || Qeq_bool (ymin b) (ymax b).

Definition type_of (g : list Box) : string :=
  match g with
  | [] => "GeometryCollection"
  | [b] =>
      if Qeq_bool (xmin b) (xmax b) && Qeq_bool (ymin b) (ymax b) then "Point"
      else if flat b then "LineString"
      else "Polygon"
  | _ =>
      if forallb (fun b => negb (flat b)) g then "MultiPolygon"
      else if forallb flat g then "MultiLineString"
      else "GeometryCollection"
  end.

Definition empty (g : list Box) : bool :=
  match g with
  | [] => true
  | _ => false
  end.

#[global] Instance boxes : Shapely Q (list Box) := {|
  Polygon := of_points;
  cascaded_union := @concat Box;
  intersection := inter;
  geom_type := type_of;
  is_empty := empty
|}.

End Boxes.

(** ** Concrete jobs and rasters used below *)

Module Examples.

Import ConfigUtils.

Definition job_with (zoom minzoom maxzoom : option Z)
    (bounds : option (list Q)) : RawConfig Q :=
  {| process_file := Some "process.py";
     process_zoom := zoom;
     process_minzoom := minzoom;
     process_maxzoom := maxzoom;
     process_bounds := bounds |}.

(** The job description of the override scenario: minimum 7, maximum 10. *)
Definition minmax_job : RawConfig Q := job_with None (Some 7) (Some 10) None.

(** A job description that declares all three zoom fields. *)
Definition three_fields_job : RawConfig Q :=
  job_with (Some 5) (Some 7) (Some 10) None.

(** A world with one job file and two rasters: [file2] is an input at
    every zoom level, [file1] only from zoom level 11 on. *)
Definition world_of (job : RawConfig Q) : World Q :=
  {| isfile := fun p =>
       bool_decide (p = "/job/example.mapchete")
       || bool_decide (p = "/job/process.py");
     yaml_load := fun _ => job;
     dirname_realpath := fun _ => "/job";
     is_valid_at_zoom := fun _ => true;
     explain_validity_at_zoom := fun _ => "invalid";
     at_zoom_input_files := fun z =>
       [("file1", if 11 <=? z then Some "testdata/dummy1.tif" else None);
        ("file2", Some "testdata/dummy2.tif")];
     raster_bounds := fun p =>
       if bool_decide (p = "/job/testdata/dummy1.tif")
       then Some (2, 1, 3, 4)%Q
       else if bool_decide (p = "/job/testdata/dummy2.tif")
       then Some (3, 1, 4, 2)%Q
       else None |}.

Definition dummy1_box : Boxes.Box :=
  {| Boxes.xmin := 2; Boxes.ymin := 1; Boxes.xmax := 3; Boxes.ymax := 4 |}.
Definition dummy2_box : Boxes.Box :=
  {| Boxes.xmin := 3; Boxes.ymin := 1; Boxes.xmax := 4; Boxes.ymax := 2 |}.

Definition uint8_band : Pyramid.Band :=
  {| Pyramid.band_dtype := "uint8";
     Pyramid.band_nodataval := None;
     Pyramid.band_min := PyInt 3;
     Pyramid.band_max := PyInt 200 |}.

Definition uint16_band : Pyramid.Band :=
  {| Pyramid.band_dtype := "uint16";
     Pyramid.band_nodataval := Some (PyInt 0);
     Pyramid.band_min := PyInt 12;
     Pyramid.band_max := PyInt 4095 |}.

Definition complex_band : Pyramid.Band :=
  {| Pyramid.band_dtype := "complex64";
     Pyramid.band_nodataval := None;
     Pyramid.band_min := PyInt 0;
     Pyramid.band_max := PyInt 1 |}.

(** A raster library that knows three files. *)
Definition pyramid_world : Pyramid.World :=
  {| Pyramid.rasterio_open := fun p =>
       if bool_decide (p = "rgba.tif")
       then Some [uint8_band; uint8_band; uint8_band; uint8_band]
       else if bool_decide (p = "dem.tif") then Some [uint16_band; uint16_band]
       else if bool_decide (p = "sar.tif") then Some [complex_band]
       else None;
     Pyramid.get_best_zoom_level := fun _ _ => 9;
     Pyramid.getcwd := "/work" |}.

Definition options_with (scale_method output_format : option string)
    (zoom : option (list Z)) : Pyramid.Options :=
  {| Pyramid.pyramid_type := "mercator";
     Pyramid.scale_method := scale_method;
     Pyramid.output_format := output_format;
     Pyramid.resampling := Some "nearest";
     Pyramid.zoom := zoom;
     Pyramid.bounds := None;
     Pyramid.overwrite := false |}.

(** The same world, with a configuration that is valid below zoom level 9
    only. *)
Definition shallow_world_of (job : RawConfig Q) : World Q :=
  {| isfile := isfile (world_of job);
     yaml_load := yaml_load (world_of job);
     dirname_realpath := dirname_realpath (world_of job);
     is_valid_at_zoom := fun z => z <? 9;
     explain_validity_at_zoom := fun z =>
       if z =? 9 then "no input at zoom 9" else "invalid";
     at_zoom_input_files := at_zoom_input_files (world_of job);
     raster_bounds := raster_bounds (world_of job) |}.


End Examples.

(** * Properties *)

(** ** Python ranges *)

Module Range.

Lemma elem_of_py_range (lo hi z : Z) : z ∈ py_range lo hi ↔ lo ≤ z < hi.
Proof.
  unfold py_range. rewrite list_elem_of_In, in_map_iff. split.
  - intros (i & <- & Hi). apply in_seq in Hi. lia.
  - intros Hz. exists (Z.to_nat (z - lo)). split; [lia |].
    apply in_seq. lia.
Qed.

Lemma py_range_one (a : Z) : py_range a (a + 1) = [a].
Proof.
  unfold py_range. replace (a + 1 - a) with 1 by lia.
  simpl. f_equal. lia.
Qed.

Lemma py_range_length (lo hi : Z) : length (py_range lo hi) = Z.to_nat (hi - lo).
Proof. unfold py_range. by rewrite length_map, length_seq. Qed.

Lemma py_range_nonempty (lo hi : Z) : lo < hi → py_range lo hi ≠ [].
Proof.
  intros Hlt Hnil. apply (f_equal length) in Hnil.
  rewrite py_range_length in Hnil. simpl in Hnil. lia.
Qed.

End Range.

(** ** Zoom resolution *)

Module ZoomResolution.

Import ConfigUtils.

Section Requests.

Context {coord : Type}.
Implicit Types (job : RawConfig coord) (request : option (list Z)).


Lemma resolve_one job a : resolve_zoom_levels job (Some [a]) = inr [a].
Proof. reflexivity. Qed.

Lemma resolve_two job a b :
  0 ≤ a → 0 ≤ b →
  resolve_zoom_levels job (Some [a; b])
  = inr (py_range (Z.min a b) (Z.max a b + 1)).
Proof.
  intros Ha Hb. unfold resolve_zoom_levels. cbn -[py_range Z.ltb Z.leb].
  rewrite (proj2 (Z.leb_le 0 a) Ha), (proj2 (Z.leb_le 0 b) Hb).
  cbn -[py_range Z.ltb]. destruct (Z.ltb_spec a b).
  - by rewrite Z.min_l, Z.max_r by lia.
  - by rewrite Z.min_r, Z.max_l by lia.
Qed.

Lemma resolve_two_negative job a b :
  a < 0 ∨ b < 0 →
  resolve_zoom_levels job (Some [a; b])
  = inl (ValueError "Zoom levels must be greater 0.").
Proof.
  intros Hneg. unfold resolve_zoom_levels. cbn -[py_range Z.ltb Z.leb].
  destruct (Z.leb_spec 0 a); [| done].
  destruct (Z.leb_spec 0 b); [lia | done].
Qed.

Lemma resolve_long job (zoom : list Z) :
  (2 < length zoom)%nat →
  resolve_zoom_levels job (Some zoom)
  = inl (ValueError "Zoom level parameter requires one or two value(s).").
Proof.
  destruct zoom as [| a [| b [| c rest]]]; simpl; try lia. done.
Qed.

Lemma resolve_no_request job request :
  truthy request = false →
  resolve_zoom_levels job request = resolve_zoom_levels job None.
Proof. unfold resolve_zoom_levels. by intros ->. Qed.

End Requests.

Section GetZoom.

Context (w : Pyramid.World) (input_raster pyramid_type : string).

Lemma get_zoom_two a b :
  Pyramid._get_zoom w (Some [a; b]) input_raster pyramid_type
  = inr (Z.min a b, Z.max a b).
Proof.
  unfold Pyramid._get_zoom. cbn -[Z.ltb]. destruct (Z.ltb_spec a b).
  - by rewrite Z.min_l, Z.max_r by lia.
  - by rewrite Z.min_r, Z.max_l by lia.
Qed.

Lemma get_zoom_one a :
  Pyramid._get_zoom w (Some [a]) input_raster pyramid_type = inr (a, a).
Proof. reflexivity. Qed.

Lemma get_zoom_long (zoom : list Z) :
  (2 < length zoom)%nat →
  Pyramid._get_zoom w (Some zoom) input_raster pyramid_type
  = inl (UnboundLocalError "minzoom").
Proof.
  destruct zoom as [| a [| b [| c rest]]]; simpl; try lia. done.
Qed.

End GetZoom.

Section Claims.

Context {coord : Type} (w : Pyramid.World).
Implicit Types (job : RawConfig coord) (input_raster pyramid_type : string).

(** C2, as amended. The resolution order of [get_clean_configuration]:
    a request that is not empty always replaces the job description;
    two values that are not negative give the closed range between them
    and one value gives the one-element range. Without a request, the
    single zoom field of the job description is read first and gives a
    one-element range; only when it is missing do the minimum and maximum
    fields, both present and not negative, give their closed range; when
    neither is there, resolution fails with "No zoom level(s) provided.".
    With minimum 7 and maximum 10 in the job description and the request
    [1, 4], the zoom levels are 1, 2, 3, 4. *)
Theorem zoom_resolution_order job (request : option (list Z)) :
  (∀ a b, request = Some [a; b] → 0 ≤ a → 0 ≤ b →
     resolve_zoom_levels job request
     = inr (py_range (Z.min a b) (Z.max a b + 1)))
  ∧ (∀ a, request = Some [a] → resolve_zoom_levels job request = inr [a])
  ∧ (truthy request = false →
     ∀ z, process_zoom job = Some z →
       resolve_zoom_levels job request = inr [z])
  ∧ (truthy request = false → process_zoom job = None →
     ∀ lo hi, process_minzoom job = Some lo → process_maxzoom job = Some hi →
       0 ≤ lo → 0 ≤ hi →
       resolve_zoom_levels job request
       = inr (py_range (Z.min lo hi) (Z.max lo hi + 1)))
  ∧ (truthy request = false → process_zoom job = None →
     process_minzoom job = None ∨ process_maxzoom job = None →
     resolve_zoom_levels job request
     = inl (Exception_ "No zoom level(s) provided."))
  ∧ (process_minzoom job = Some 7 → process_maxzoom job = Some 10 →
     resolve_zoom_levels job (Some [1; 4]) = inr [1; 2; 3; 4]).
Proof.
  split; [| split; [| split; [| split; [| split]]]].
  - intros a b -> Ha Hb. by apply resolve_two.
  - by intros a ->.
  - intros Hno z Hz. rewrite (resolve_no_request _ _ Hno).
    unfold resolve_zoom_levels, config_zoom. by rewrite Hz.
  - intros Hno Hz lo hi Hlo Hhi Hlo0 Hhi0.
    rewrite (resolve_no_request _ _ Hno).
    rewrite <- (resolve_two job lo hi Hlo0 Hhi0).
    unfold resolve_zoom_levels, config_zoom. by rewrite Hz, Hlo, Hhi.
  - intros Hno Hz Hmiss. rewrite (resolve_no_request _ _ Hno).
    unfold resolve_zoom_levels, config_zoom. rewrite Hz.
    destruct Hmiss as [-> | ->]; [done |].
    by destruct (process_minzoom job).
  - intros _ _. by rewrite resolve_two.
Qed.

(** C3. The sign of a zoom level is tested in the branch of two values
    only: a request of one negative value is accepted as it is, by
    [get_clean_configuration] as by [_get_zoom], while a request of two
    values with a negative one is refused with a [ValueError]. *)
Theorem negative_zoom_request job input_raster pyramid_type (a b : Z) :
  a < 0 →
  resolve_zoom_levels job (Some [a]) = inr [a]
  ∧ Pyramid._get_zoom w (Some [a]) input_raster pyramid_type = inr (a, a)
  ∧ resolve_zoom_levels job (Some [a; b])
    = inl (ValueError "Zoom levels must be greater 0.")
  ∧ resolve_zoom_levels job (Some [b; a])
    = inl (ValueError "Zoom levels must be greater 0.").
Proof.
  intros Ha. split; [reflexivity |]. split; [reflexivity |].
  split; apply resolve_two_negative; [by left | by right].
Qed.

(** C6. A request [a, b] of two values that are not negative resolves to
    the closed interval from [min a b] to [max a b]: a zoom level is in
    the result exactly when it lies between the two, the order of the
    request does not matter, and equal values give the one-element
    range. [_get_zoom] returns the same two ends. *)
Theorem two_value_request_interval job input_raster pyramid_type (a b : Z) :
  0 ≤ a → 0 ≤ b →
  resolve_zoom_levels job (Some [a; b])
  = inr (py_range (Z.min a b) (Z.max a b + 1))
  ∧ (∀ z, z ∈ py_range (Z.min a b) (Z.max a b + 1)
          ↔ Z.min a b ≤ z ≤ Z.max a b)
  ∧ resolve_zoom_levels job (Some [b; a])
    = resolve_zoom_levels job (Some [a; b])
  ∧ (a = b → resolve_zoom_levels job (Some [a; b]) = inr [a])
  ∧ Pyramid._get_zoom w (Some [a; b]) input_raster pyramid_type
    = inr (Z.min a b, Z.max a b)
  ∧ Pyramid._get_zoom w (Some [b; a]) input_raster pyramid_type
    = Pyramid._get_zoom w (Some [a; b]) input_raster pyramid_type.
Proof.
  intros Ha Hb.
  split; [by apply resolve_two |].
  split; [intros z; rewrite Range.elem_of_py_range; lia |].
  split; [rewrite !resolve_two by done; by rewrite Z.min_comm, Z.max_comm |].
  split.
  { intros <-. rewrite resolve_two by done.
    by rewrite Z.min_id, Z.max_id, Range.py_range_one. }
  split; [apply get_zoom_two |].
  rewrite !get_zoom_two. by rewrite Z.min_comm, Z.max_comm.
Qed.

(** C8. A request of more than two values: [get_clean_configuration]
    refuses it with a [ValueError] that says so; [_get_zoom] has no branch
    for it, leaves [minzoom] without a value and fails at its [return]
    with [UnboundLocalError]. Neither returns a zoom range. *)
Theorem long_zoom_request job input_raster pyramid_type (zoom : list Z) :
  (2 < length zoom)%nat →
  resolve_zoom_levels job (Some zoom)
  = inl (ValueError "Zoom level parameter requires one or two value(s).")
  ∧ Pyramid._get_zoom w (Some zoom) input_raster pyramid_type
    = inl (UnboundLocalError "minzoom").
Proof.
  intros Hlen. split; [by apply resolve_long | by apply get_zoom_long].
Qed.

(** C9. Without a zoom request ([None] or an empty sequence),
    [_get_zoom] returns 1 as the minimum and, as the maximum, what
    [get_best_zoom_level] returns for the input raster and the pyramid
    type. *)
Theorem default_zoom_range input_raster pyramid_type
    (zoom : option (list Z)) :
  truthy zoom = false →
  Pyramid._get_zoom w zoom input_raster pyramid_type
  = inr (1, Pyramid.get_best_zoom_level w input_raster pyramid_type).
Proof. unfold Pyramid._get_zoom. by intros ->. Qed.

End Claims.

(** The job description with all three zoom fields resolves to its single
    zoom field, where the order of the specification gives the range of the
    minimum and maximum fields. *)
Lemma zoom_order_counterexample :
  resolve_zoom_levels Examples.three_fields_job None = inr [5]
  ∧ Spec.ZoomResolver Examples.three_fields_job None = inr [7; 8; 9; 10]
  ∧ resolve_zoom_levels Examples.three_fields_job None
    ≠ Spec.ZoomResolver Examples.three_fields_job None.
Proof. split; [reflexivity |]. split; [reflexivity | discriminate]. Qed.

Lemma zoom_resolution_order_witness :
  resolve_zoom_levels Examples.three_fields_job None = inr [5]
  ∧ resolve_zoom_levels Examples.minmax_job None = inr [7; 8; 9; 10]
  ∧ resolve_zoom_levels Examples.minmax_job (Some [1; 4]) = inr [1; 2; 3; 4].
Proof.
  pose proof (zoom_resolution_order Examples.three_fields_job None)
    as (_ & _ & H3 & _).
  pose proof (zoom_resolution_order Examples.minmax_job None)
    as (_ & _ & _ & H4 & _ & H6).
  split; [exact (H3 eq_refl 5 eq_refl) |].
  split; [| exact (H6 eq_refl eq_refl)].
  exact (H4 eq_refl eq_refl 7 10 eq_refl eq_refl ltac:(lia) ltac:(lia)).
Defined.

Lemma negative_zoom_request_witness :
  resolve_zoom_levels Examples.minmax_job (Some [-3]) = inr [-3]
  ∧ Pyramid._get_zoom Examples.pyramid_world (Some [-3]) "dem.tif" "mercator"
    = inr (-3, -3)
  ∧ resolve_zoom_levels Examples.minmax_job (Some [-3; 2])
    = inl (ValueError "Zoom levels must be greater 0.")
  ∧ resolve_zoom_levels Examples.minmax_job (Some [2; -3])
    = inl (ValueError "Zoom levels must be greater 0.").
Proof.
  apply (negative_zoom_request Examples.pyramid_world Examples.minmax_job
           "dem.tif" "mercator" (-3) 2).
  lia.
Defined.

Lemma two_value_request_interval_witness :
  resolve_zoom_levels Examples.minmax_job (Some [4; 1]) = inr [1; 2; 3; 4]
  ∧ Pyramid._get_zoom Examples.pyramid_world (Some [4; 1]) "dem.tif" "mercator"
    = inr (1, 4).
Proof.
  pose proof (two_value_request_interval Examples.pyramid_world
                Examples.minmax_job "dem.tif" "mercator" 4 1
                ltac:(lia) ltac:(lia)) as (H1 & _ & _ & _ & H5 & _).
  split; [exact H1 | exact H5].
Defined.

Lemma long_zoom_request_witness :
  resolve_zoom_levels Examples.minmax_job (Some [1; 2; 3])
  = inl (ValueError "Zoom level parameter requires one or two value(s).")
  ∧ Pyramid._get_zoom Examples.pyramid_world (Some [1; 2; 3]) "dem.tif" "mercator"
    = inl (UnboundLocalError "minzoom").
Proof.
  apply (long_zoom_request Examples.pyramid_world Examples.minmax_job
           "dem.tif" "mercator" [1; 2; 3]).
  simpl. lia.
Defined.

Lemma default_zoom_range_witness :
  Pyramid._get_zoom Examples.pyramid_world (Some []) "dem.tif" "mercator"
  = inr (1, 9).
Proof.
  apply (default_zoom_range Examples.pyramid_world "dem.tif" "mercator" (Some [])).
  reflexivity.
Defined.

End ZoomResolution.

(** ** The scale plan of [raster2pyramid] *)

Module Rescale.

Import Pyramid.

Lemma scale_loop_const (indexes : list Z) (body : Z → Result ScalePair)
    (pair : ScalePair) (acc : list ScalePair) :
  (∀ index, index ∈ indexes → body index = inr pair) →
  scale_loop indexes body acc = inr (acc ++ replicate (length indexes) pair).
Proof.
  revert acc. induction indexes as [| i rest IH]; intros acc Hbody; simpl.
  - by rewrite app_nil_r.
  - rewrite (Hbody i) by apply list_elem_of_here. simpl.
    rewrite IH by (intros; apply Hbody; by apply list_elem_of_further).
    by rewrite <- app_assoc.
Qed.

Lemma scale_loop_total (indexes : list Z) (body : Z → Result ScalePair)
    (acc : list ScalePair) :
  (∀ index, index ∈ indexes → ∃ pair, body index = inr pair) →
  ∃ scales, scale_loop indexes body acc = inr scales.
Proof.
  revert acc. induction indexes as [| i rest IH]; intros acc Hbody; simpl.
  - by exists acc.
  - destruct (Hbody i) as [pair ->]; [apply list_elem_of_here |]. simpl.
    apply IH. intros; apply Hbody; by apply list_elem_of_further.
Qed.

Lemma scale_loop_raise (indexes : list Z) (body : Z → Result ScalePair)
    (e : PyException) (acc : list ScalePair) :
  indexes ≠ [] → (∀ index, body index = inl e) →
  scale_loop indexes body acc = inl e.
Proof.
  destruct indexes as [| i rest]; [done |]. intros _ Hbody. simpl.
  by rewrite Hbody.
Qed.

Lemma read_in_range (input_raster : Raster) (index : Z) :
  1 ≤ index ≤ count input_raster → ∃ band, read input_raster index = inr band.
Proof.
  unfold read, count. intros Hindex.
  destruct (Z.ltb_spec index 1); [lia |].
  destruct (input_raster !! Z.to_nat (index - 1)) as [band |] eqn:Hband;
    [by exists band |].
  apply lookup_ge_None in Hband. lia.
Qed.

Lemma band_indexes_length (output_bands : Z) :
  length (py_range 1 (output_bands + 1)) = Z.to_nat output_bands.
Proof. rewrite Range.py_range_length. f_equal. lia. Qed.

(** The requested method cannot fail on a raster whose data type is in
    the table, as long as no band beyond the last one is read. *)
Lemma requested_scales_total (input_raster : Raster) (input_dtype : string)
    (output_bands : Z) (scale_method : option string) :
  is_Some (DTYPE_RANGES !! input_dtype) →
  output_bands ≤ count input_raster →
  ∃ scales,
    requested_scales input_raster input_dtype output_bands scale_method
    = inr scales.
Proof.
  intros [[lo hi] Hrange] Hbands. unfold requested_scales.
  repeat case_bool_decide.
  - rewrite Hrange. by apply scale_loop_total; eauto.
  - apply scale_loop_total. intros index Hindex.
    apply Range.elem_of_py_range in Hindex.
    destruct (read_in_range input_raster index) as [band ->]; [lia |].
    simpl. eauto.
  - apply scale_loop_total; eauto.
  - by eexists.
Qed.

Lemma get_zoom_total (w : World) (zoom : option (list Z))
    (input_raster pyramid_type : string) :
  (length (seq_of zoom) ≤ 2)%nat →
  ∃ zooms, _get_zoom w zoom input_raster pyramid_type = inr zooms.
Proof.
  intros Hlen. unfold _get_zoom.
  destruct zoom as [[| a [| b [| c rest]]] |]; simpl in *;
    try lia; try by eexists.
  destruct (a <? b); by eexists.
Qed.

(** The table holds the seven rows of the specification and no other. *)
Lemma DTYPE_RANGES_rows :
  DTYPE_RANGES !! "uint8" = Some (PyInt 0, PyInt 255)
  ∧ DTYPE_RANGES !! "uint16" = Some (PyInt 0, PyInt 65535)
  ∧ DTYPE_RANGES !! "int16" = Some (PyInt (-32768), PyInt 32767)
  ∧ DTYPE_RANGES !! "uint32" = Some (PyInt 0, PyInt 4294967295)
  ∧ DTYPE_RANGES !! "int32" = Some (PyInt (-2147483648), PyInt 2147483647)
  ∧ DTYPE_RANGES !! "float32"
    = Some (PyFloat (-3.4028235e+38)%float, PyFloat 3.4028235e+38%float)
  ∧ DTYPE_RANGES !! "float64"
    = Some (PyFloat (-1.7976931348623157e+308)%float,
            PyFloat 1.7976931348623157e+308%float).
Proof. repeat split; vm_compute; reflexivity. Qed.

Lemma DTYPE_RANGES_other (input_dtype : string) :
  input_dtype ∉ ["uint8"; "uint16"; "int16"; "uint32"; "int32";
                 "float32"; "float64"] →
  DTYPE_RANGES !! input_dtype = None.
Proof.
  intros Hnot. unfold DTYPE_RANGES. simpl.
  repeat (rewrite lookup_insert_ne; [| intros <-; apply Hnot; set_solver]).
  apply lookup_empty.
Qed.

Section Claims.

Context (w : World) (input_file output_dir : string) (options : Options).

#[local] Abbreviation bands_of := (capped_band_count (output_format options)).

Lemma bands_of_bounds (input_raster : Raster) :
  0 ≤ bands_of input_raster ≤ count input_raster.
Proof.
  unfold capped_band_count, count.
  destruct (bool_decide _); simpl;
    [destruct (Z.ltb_spec 3 (Z.of_nat (length input_raster))) |]; lia.
Qed.

(** C5. For an input raster whose data type is [uint8], whatever scale
    method is requested, the configuration has no scale method and one
    pair (None, None) per output band, the output band count being the
    band count of the raster, or 3 for a PNG of more than three bands. *)
Theorem uint8_scale_plan (input_raster : Raster) :
  (length (seq_of (zoom options)) ≤ 2)%nat →
  rasterio_open w input_file = Some input_raster →
  dtypes input_raster !! 0%nat = Some "uint8" →
  ∃ config,
    raster2pyramid w input_file output_dir options = inr config
    ∧ scale_method_ config = None
    ∧ output_bands config
      = (if bool_decide (output_format options = Some "PNG")
            && (3 <? count input_raster)
         then 3 else count input_raster)
    ∧ scales_minmax config
      = replicate (Z.to_nat (output_bands config)) (None, None)
    ∧ Z.of_nat (length (scales_minmax config)) = output_bands config.
Proof.
  intros Hzoom Hopen Hdtype.
  destruct (get_zoom_total w (zoom options) input_file (pyramid_type options)
              Hzoom) as [zooms Hzooms].
  destruct input_raster as [| band rest]; [done |].
  simpl in Hdtype. injection Hdtype as Hdtype.
  pose proof (bands_of_bounds (band :: rest)) as Hbands.
  destruct (requested_scales_total (band :: rest) "uint8"
              (bands_of (band :: rest)) (scale_method options))
    as [scales Hscales]; [by eexists; apply DTYPE_RANGES_rows | lia |].
  unfold raster2pyramid. rewrite Hzooms, Hopen.
  cbn [bind ret item0 dtypes nodatavals map]. rewrite Hdtype.
  fold (bands_of (band :: rest)). rewrite Hscales.
  cbn [bind]. unfold uint8_override. cbn [String.eqb Ascii.eqb Bool.eqb].
  rewrite (scale_loop_const _ _ (None, None)) by done.
  cbn [bind app]. eexists. split; [reflexivity |]. cbn.
  rewrite band_indexes_length.
  split; [done |]. split; [done |]. split; [done |].
  rewrite length_replicate. lia.
Qed.

(** C7, as amended. With the scale method "dtype_scale" and an input
    data type other than [uint8]: when the type is a row of the table
    (uint16, int16, uint32, int32, float32, float64 with the values
    listed), every output band gets the pair of that row and the scale
    method stays; a uint16 input gets (0, 65535) for every band; when the
    type is not in the table, no configuration is built and [KeyError]
    is raised. (A [uint8] input gets (None, None), by the override of
    lines 97-101.) *)
Theorem dtype_range_plan (input_raster : Raster) (input_dtype : string) :
  (length (seq_of (zoom options)) ≤ 2)%nat →
  rasterio_open w input_file = Some input_raster →
  dtypes input_raster !! 0%nat = Some input_dtype →
  scale_method options = Some "dtype_scale" →
  input_dtype ≠ "uint8" →
  (DTYPE_RANGES !! "uint8" = Some (PyInt 0, PyInt 255)
   ∧ DTYPE_RANGES !! "uint16" = Some (PyInt 0, PyInt 65535)
   ∧ DTYPE_RANGES !! "int16" = Some (PyInt (-32768), PyInt 32767)
   ∧ DTYPE_RANGES !! "uint32" = Some (PyInt 0, PyInt 4294967295)
   ∧ DTYPE_RANGES !! "int32" = Some (PyInt (-2147483648), PyInt 2147483647)
   ∧ DTYPE_RANGES !! "float32"
     = Some (PyFloat (-3.4028235e+38)%float, PyFloat 3.4028235e+38%float)
   ∧ DTYPE_RANGES !! "float64"
     = Some (PyFloat (-1.7976931348623157e+308)%float,
             PyFloat 1.7976931348623157e+308%float))
  ∧ match DTYPE_RANGES !! input_dtype with
    | Some (lo, hi) =>
        ∃ config,
          raster2pyramid w input_file output_dir options = inr config
          ∧ scale_method_ config = Some "dtype_scale"
          ∧ scales_minmax config
            = replicate (Z.to_nat (output_bands config)) (Some lo, Some hi)
          ∧ Z.of_nat (length (scales_minmax config)) = output_bands config
    | None =>
        raster2pyramid w input_file output_dir options
        = inl (KeyError input_dtype)
    end
  ∧ (input_dtype = "uint16" →
     ∃ config,
       raster2pyramid w input_file output_dir options = inr config
       ∧ scales_minmax config
         = replicate (Z.to_nat (output_bands config))
             (Some (PyInt 0), Some (PyInt 65535))).
Proof.
  intros Hzoom Hopen Hdtype Hmethod Hnot8.
  destruct (get_zoom_total w (zoom options) input_file (pyramid_type options)
              Hzoom) as [zooms Hzooms].
  destruct input_raster as [| band rest]; [done |].
  simpl in Hdtype. injection Hdtype as Hdtype.
  pose proof (bands_of_bounds (band :: rest)) as Hbands.
  assert (Hcount : 1 ≤ bands_of (band :: rest)).
  { unfold capped_band_count, count. destruct (_ && _); simpl length; lia. }
  assert (Hrun :
    raster2pyramid w input_file output_dir options
    = match DTYPE_RANGES !! input_dtype with
      | Some (lo, hi) =>
          inr {| process := "mapchete.processes.pyramid.tilify";
                 output_path := output_dir;
                 output_format_ := output_format options;
                 output_bands := bands_of (band :: rest);
                 output_dtype :=
                   if bool_decide (output_format options = Some "PNG")
                      && (3 <? count (band :: rest))
                   then "uint8" else input_dtype;
                 pyramid_pixelbuffer := 5;
                 pyramid_grid := pyramid_type options;
                 scale_method_ := Some "dtype_scale";
                 scales_minmax :=
                   replicate (Z.to_nat (bands_of (band :: rest)))
                     (Some lo, Some hi);
                 input_raster_ := input_file;
                 config_dir := getcwd w;
                 zoom_levels_min := fst zooms;
                 zoom_levels_max := snd zooms;
                 nodataval :=
                   if truthy_num (band_nodataval band)
                   then default (PyInt 0) (band_nodataval band)
                   else PyInt 0;
                 resampling_ := resampling options;
                 bounds_ := bounds options;
                 baselevel_zoom := snd zooms;
                 baselevel_resampling := resampling options;
                 mode := if overwrite options then "overwrite" else "continue" |}
      | None => inl (KeyError input_dtype)
      end).
  { unfold raster2pyramid. rewrite Hzooms, Hopen.
    cbn [bind ret item0 dtypes nodatavals map]. rewrite Hdtype.
    fold (bands_of (band :: rest)).
    unfold requested_scales. rewrite Hmethod.
    rewrite bool_decide_eq_true_2 by done.
    destruct (DTYPE_RANGES !! input_dtype) as [[lo hi] |] eqn:Hrange.
    - rewrite (scale_loop_const _ _ (Some lo, Some hi)) by done.
      cbn [bind app]. unfold uint8_override.
      rewrite (proj2 (String.eqb_neq _ _) Hnot8). cbn [bind fst snd].
      by rewrite band_indexes_length.
    - rewrite (scale_loop_raise _ _ (KeyError input_dtype)); [done | | done].
      apply Range.py_range_nonempty. lia. }
  split; [exact DTYPE_RANGES_rows |]. split.
  - rewrite Hrun. destruct (DTYPE_RANGES !! input_dtype) as [[lo hi] |];
      [| done].
    eexists. split; [reflexivity |]. cbn.
    split; [done |]. split; [done |]. rewrite length_replicate. lia.
  - intros ->. rewrite Hrun.
    rewrite (proj1 (proj2 DTYPE_RANGES_rows)).
    eexists. split; [reflexivity | done].
Qed.

End Claims.

Lemma uint8_scale_plan_witness :
  ∃ config,
    raster2pyramid Examples.pyramid_world "rgba.tif" "out"
      (Examples.options_with (Some "minmax_scale") (Some "PNG") None)
    = inr config
    ∧ scale_method_ config = None
    ∧ output_bands config = 3
    ∧ scales_minmax config = [(None, None); (None, None); (None, None)]
    ∧ Z.of_nat (length (scales_minmax config)) = output_bands config.
Proof.
  destruct (uint8_scale_plan Examples.pyramid_world "rgba.tif" "out"
              (Examples.options_with (Some "minmax_scale") (Some "PNG") None)
              [Examples.uint8_band; Examples.uint8_band;
               Examples.uint8_band; Examples.uint8_band])
    as (config & Hrun & Hmethod & Hbands & Hscales & Hlength).
  - simpl. lia.
  - reflexivity.
  - reflexivity.
  - exists config. rewrite Hscales, Hbands. repeat split; assumption.
Defined.

Lemma dtype_range_plan_witness :
  ∃ config,
    raster2pyramid Examples.pyramid_world "dem.tif" "out"
      (Examples.options_with (Some "dtype_scale") None (Some [3; 5]))
    = inr config
    ∧ scales_minmax config
      = replicate (Z.to_nat (output_bands config))
          (Some (PyInt 0), Some (PyInt 65535)).
Proof.
  apply (dtype_range_plan Examples.pyramid_world "dem.tif" "out"
           (Examples.options_with (Some "dtype_scale") None (Some [3; 5]))
           [Examples.uint16_band; Examples.uint16_band] "uint16").
  - simpl. lia.
  - reflexivity.
  - reflexivity.
  - reflexivity.
  - discriminate.
  - reflexivity.
Defined.

(** With "dtype_scale" requested for a [uint8] raster, the bands do not
    get the pair (0, 255) of the table but (None, None). *)
Lemma dtype_range_counterexample :
  DTYPE_RANGES !! "uint8" = Some (PyInt 0, PyInt 255)
  ∧ ∃ config,
      raster2pyramid Examples.pyramid_world "rgba.tif" "out"
        (Examples.options_with (Some "dtype_scale") None None)
      = inr config
      ∧ output_bands config = 4
      ∧ scales_minmax config = replicate 4 (None, None)
      ∧ scales_minmax config
        ≠ replicate 4 (Some (PyInt 0), Some (PyInt 255)).
Proof.
  split; [apply DTYPE_RANGES_rows |].
  eexists. split; [vm_compute; reflexivity |].
  split; [reflexivity |]. split; [reflexivity | discriminate].
Qed.

End Rescale.

(** ** The process area of [get_clean_configuration] *)

Module ProcessArea.

Import ConfigUtils.

Section Area.

Context {coord Geometry : Type} `{Shapely coord Geometry} (w : World coord).
Implicit Types (job : RawConfig coord) (zoom_levels : list Z).
Implicit Types (bounds : option (list coord)) (bboxes : list Geometry).

(** *** The steps before the loop *)

Lemma resolve_zoom_levels_nonempty job (zoom : option (list Z)) zoom_levels :
  resolve_zoom_levels job zoom = inr zoom_levels → zoom_levels ≠ [].
Proof.
  unfold resolve_zoom_levels.
  destruct (if truthy zoom then zoom else config_zoom job)
    as [[| a [| b [| c rest]]] |]; cbn -[py_range Z.ltb Z.leb];
    try discriminate.
  - by intros [= <-].
  - destruct (_ && _); [| discriminate].
    destruct (Z.ltb_spec a b); intros [= <-];
      apply Range.py_range_nonempty; lia.
Qed.

Lemma resolve_zoom_levels_error job (zoom : option (list Z)) e :
  resolve_zoom_levels job zoom = inl e →
  e = Exception_ "No zoom level(s) provided."
  ∨ e = ValueError "Zoom levels must be greater 0."
  ∨ e = ValueError "Zoom level parameter requires one or two value(s).".
Proof.
  unfold resolve_zoom_levels.
  destruct (if truthy zoom then zoom else config_zoom job)
    as [[| a [| b [| c rest]]] |]; cbn -[py_range Z.ltb Z.leb];
    try discriminate; try (intros [= <-]; auto).
  destruct (_ && _); [| intros [= <-]; auto].
  by destruct (a <? b).
Qed.

Lemma check_validity_ok zoom_levels (zoom : option Z) :
  (∀ z, z ∈ zoom_levels → is_valid_at_zoom w z = true) →
  check_validity w zoom_levels zoom
  = inr (match last zoom_levels with Some z => Some z | None => zoom end).
Proof.
  revert zoom. induction zoom_levels as [| z rest IH]; intros zoom Hvalid.
  - reflexivity.
  - simpl check_validity. rewrite Hvalid by apply list_elem_of_here.
    rewrite IH by (intros; apply Hvalid; by apply list_elem_of_further).
    rewrite last_cons. by destruct (last rest).
Qed.

Lemma check_validity_inv zoom_levels (zoom zoom' : option Z) :
  check_validity w zoom_levels zoom = inr zoom' →
  ∀ z, z ∈ zoom_levels → is_valid_at_zoom w z = true.
Proof.
  revert zoom. induction zoom_levels as [| z rest IH]; intros zoom Hrun y Hy.
  - by apply elem_of_nil in Hy.
  - simpl in Hrun. destruct (is_valid_at_zoom w z) eqn:Hz; [| done].
    apply elem_of_cons in Hy as [-> | Hy]; [done | by eapply IH].
Qed.

Lemma check_validity_error zoom_levels (zoom : option Z) e :
  check_validity w zoom_levels zoom = inl e → ∃ msg, e = Exception_ msg.
Proof.
  revert zoom. induction zoom_levels as [| z rest IH]; intros zoom; simpl.
  - discriminate.
  - destruct (is_valid_at_zoom w z); [apply IH |].
    intros [= <-]. by eexists.
Qed.

Lemma resolve_bounds_job job bounds :
  truthy bounds = false →
  resolve_bounds job bounds = inr (process_bounds job).
Proof. unfold resolve_bounds. by intros ->. Qed.

Lemma resolve_bounds_shape job bounds bounds' :
  resolve_bounds job bounds = inr bounds' →
  truthy bounds = true →
  bounds' = bounds ∧ length (seq_of bounds') = 4%nat.
Proof.
  unfold resolve_bounds. intros Hrun Hsome. rewrite Hsome in Hrun.
  destruct (Nat.eqb_spec (length (seq_of bounds)) 4); [| done].
  by injection Hrun as <-.
Qed.

(** *** The loop body *)

Lemma collect_bboxes_error config_dir input_files bboxes e :
  collect_bboxes w config_dir input_files bboxes = inl e →
  ∃ msg, e = IOError msg.
Proof.
  revert bboxes.
  induction input_files as [| [input_file rel_path] rest IH];
    intros bboxes; simpl.
  - discriminate.
  - destruct (truthy_str rel_path); [| apply IH].
    destruct (raster_bounds w _) as [[[[l b] r] t] |]; [apply IH |].
    intros [= <-]. by eexists.
Qed.

Lemma out_area_at_no_bounds mapchete_file (zoom : Z) bounds bboxes :
  collect_bboxes w (dirname_realpath w mapchete_file)
    (at_zoom_input_files w zoom) [] = inr bboxes →
  truthy bounds = false →
  out_area_at w mapchete_file (Some zoom) bounds
  = inr (cascaded_union bboxes).
Proof. unfold out_area_at. intros -> Hnone. cbn [bind]. by rewrite Hnone. Qed.

Lemma out_area_at_bounds mapchete_file (zoom : Z) bboxes
    (left_ bottom right_ top : coord) :
  collect_bboxes w (dirname_realpath w mapchete_file)
    (at_zoom_input_files w zoom) [] = inr bboxes →
  out_area_at w mapchete_file (Some zoom)
    (Some [left_; bottom; right_; top])
  = inr (let out_area :=
           intersection (cascaded_union bboxes)
             (bbox_polygon left_ bottom right_ top) in
         if bool_decide (geom_type out_area ∈ supported_geom_types)
         then out_area else Polygon []).
Proof.
  unfold out_area_at. intros ->. cbn. by case_bool_decide.
Qed.

Lemma out_area_at_unpack mapchete_file (zoom : Z) bounds bboxes :
  collect_bboxes w (dirname_realpath w mapchete_file)
    (at_zoom_input_files w zoom) [] = inr bboxes →
  truthy bounds = true →
  length (seq_of bounds) ≠ 4%nat →
  out_area_at w mapchete_file (Some zoom) bounds
  = inl (UnpackError (length (seq_of bounds))).
Proof.
  unfold out_area_at. intros -> Hsome Hlen. cbn [bind]. rewrite Hsome.
  by destruct bounds as [[| a [| b [| c [| d [| e rest]]]]] |].
Qed.

Lemma out_area_at_error mapchete_file (zoom : option Z) bounds e :
  out_area_at w mapchete_file zoom bounds = inl e →
  (∃ msg, e = IOError msg) ∨ (∃ msg, e = TypeError msg)
  ∨ (∃ n, e = UnpackError n).
Proof.
  unfold out_area_at. destruct zoom as [zoom |];
    [| intros [= <-]; right; left; by eexists].
  destruct (collect_bboxes _ _ _ _) as [e' | bboxes] eqn:Hcollect; cbn.
  - intros [= <-]. left. by eapply collect_bboxes_error.
  - destruct (truthy bounds); [| done].
    destruct (seq_of bounds) as [| a [| b [| c [| d [| e' rest]]]]];
      try (intros [= <-]; right; right; by eexists).
    by case_bool_decide.
Qed.

(** *** The loop *)

Lemma area_loop_ok mapchete_file zoom_levels (zoom : option Z) bounds
    (out_area : Geometry) (bounds_per_zoom : gmap Z Geometry) :
  out_area_at w mapchete_file zoom bounds = inr out_area →
  ∃ areas,
    area_loop w mapchete_file zoom_levels zoom bounds bounds_per_zoom
    = inr areas
    ∧ ∀ z, areas !! z
           = if decide (z ∈ zoom_levels) then Some out_area
             else bounds_per_zoom !! z.
Proof.
  intros Hbody. revert bounds_per_zoom.
  induction zoom_levels as [| zoom_level rest IH]; intros bounds_per_zoom.
  - exists bounds_per_zoom. split; [done |]. intros z.
    by rewrite decide_False by apply not_elem_of_nil.
  - simpl. rewrite Hbody. cbn [bind].
    destruct (IH (<[zoom_level := out_area]> bounds_per_zoom))
      as (areas & -> & Hareas).
    exists areas. split; [done |]. intros z. rewrite Hareas.
    destruct (decide (z ∈ rest)) as [Hin | Hout].
    + by rewrite decide_True by (by apply list_elem_of_further).
    + destruct (decide (z = zoom_level)) as [-> | Hne].
      * rewrite lookup_insert_eq.
        by rewrite decide_True by apply list_elem_of_here.
      * rewrite lookup_insert_ne by done.
        rewrite decide_False; [done |].
        intros [-> | Hin]%elem_of_cons; done.
Qed.

Lemma area_loop_raise mapchete_file zoom_levels (zoom : option Z) bounds
    e (bounds_per_zoom : gmap Z Geometry) :
  zoom_levels ≠ [] →
  out_area_at w mapchete_file zoom bounds = inl e →
  area_loop w mapchete_file zoom_levels zoom bounds bounds_per_zoom = inl e.
Proof.
  destruct zoom_levels as [| zoom_level rest]; [done |].
  intros _ Hbody. simpl. by rewrite Hbody.
Qed.

Lemma area_loop_error mapchete_file zoom_levels (zoom : option Z) bounds
    e (bounds_per_zoom : gmap Z Geometry) :
  area_loop w mapchete_file zoom_levels zoom bounds bounds_per_zoom = inl e →
  out_area_at w mapchete_file zoom bounds = inl e.
Proof.
  revert bounds_per_zoom.
  induction zoom_levels as [| zoom_level rest IH]; intros bounds_per_zoom;
    simpl; [discriminate |].
  destruct (out_area_at w mapchete_file zoom bounds) as [e' | out_area];
    cbn [bind]; [by intros [= ->] | apply IH].
Qed.

(** *** The whole function *)

(** Once the files are there, the zoom levels resolve, the configuration
    is valid at each of them and the bounds pass, what remains is the
    loop, run with [zoom] bound to the last zoom level. *)
Lemma get_clean_configuration_loop mapchete_file (zoom : option (list Z))
    bounds (output_path output_format : option string)
    (rel_path : string) zoom_levels bounds' :
  isfile w mapchete_file = true →
  process_file (yaml_load w mapchete_file) = Some rel_path →
  isfile w (path_join (dirname_realpath w mapchete_file) rel_path) = true →
  resolve_zoom_levels (yaml_load w mapchete_file) zoom = inr zoom_levels →
  (∀ z, z ∈ zoom_levels → is_valid_at_zoom w z = true) →
  resolve_bounds (yaml_load w mapchete_file) bounds = inr bounds' →
  get_clean_configuration w mapchete_file zoom bounds
    output_path output_format
  = (bounds_per_zoom <-
       area_loop w mapchete_file zoom_levels (last zoom_levels) bounds' ∅ ;;
     ret {| zoom_levels := zoom_levels; process_area := bounds_per_zoom |}).
Proof.
  intros Hfile Hprocess Hpfile Hzoom Hvalid Hbounds.
  unfold get_clean_configuration.
  rewrite Hfile, Hprocess. cbn [negb]. rewrite Hpfile, Hzoom. cbn [negb bind].
  rewrite (check_validity_ok _ _ Hvalid). cbn [bind]. rewrite Hbounds.
  cbn [bind]. by destruct (last zoom_levels).
Qed.

End Area.

Section Inversion.

Context {coord Geometry : Type} `{Shapely coord Geometry} (w : World coord).

(** What a returned configuration says about the steps that led to it. *)
Lemma get_clean_configuration_inv mapchete_file (zoom : option (list Z))
    (bounds : option (list coord)) (output_path output_format : option string)
    (out : OutConfig Geometry) :
  get_clean_configuration w mapchete_file zoom bounds
    output_path output_format = inr out →
  ∃ bounds',
    resolve_zoom_levels (yaml_load w mapchete_file) zoom
    = inr (zoom_levels out)
    ∧ (∀ z, z ∈ zoom_levels out → is_valid_at_zoom w z = true)
    ∧ resolve_bounds (yaml_load w mapchete_file) bounds = inr bounds'
    ∧ area_loop w mapchete_file (zoom_levels out) (last (zoom_levels out))
        bounds' ∅ = inr (process_area out).
Proof.
  unfold get_clean_configuration.
  destruct (isfile w mapchete_file); [| done]. cbn [negb].
  destruct (process_file _) as [rel_path |]; [| done].
  destruct (isfile w _); [| done]. cbn [negb].
  destruct (resolve_zoom_levels _ _) as [e | zoom_levels]; [done |].
  cbn [bind].
  destruct (check_validity w zoom_levels None) as [e | zoom_var] eqn:Hvalid;
    [done |].
  cbn [bind].
  destruct (resolve_bounds _ _) as [e | bounds']; [done |]. cbn [bind].
  destruct (area_loop _ _ _ _ _ _) as [e | areas] eqn:Hloop; [done |].
  intros [= <-]. simpl. exists bounds'.
  pose proof (check_validity_inv w _ _ _ Hvalid) as Hall.
  rewrite (check_validity_ok w _ None Hall) in Hvalid.
  injection Hvalid as <-.
  split; [done |]. split; [done |]. split; [done |].
  by destruct (last zoom_levels).
Qed.

(** Every entry of the process area is the area of the input files at
    the last zoom level. *)
Lemma area_computed_at_last_zoom mapchete_file (zoom : option (list Z))
    (bounds : option (list coord)) (output_path output_format : option string)
    (out : OutConfig Geometry) :
  get_clean_configuration w mapchete_file zoom bounds
    output_path output_format = inr out →
  ∃ last_zoom bounds' out_area,
    last (zoom_levels out) = Some last_zoom
    ∧ out_area_at w mapchete_file (Some last_zoom) bounds' = inr out_area
    ∧ ∀ z, z ∈ zoom_levels out → process_area out !! z = Some out_area.
Proof.
  intros (bounds' & Hzoom & _ & _ & Hloop)%get_clean_configuration_inv.
  apply resolve_zoom_levels_nonempty in Hzoom.
  destruct (last (zoom_levels out)) as [last_zoom |] eqn:Hlast;
    [| by apply last_None in Hlast].
  destruct (out_area_at w mapchete_file (Some last_zoom) bounds')
    as [e | out_area] eqn:Hbody.
  - by rewrite (area_loop_raise w _ _ _ _ e ∅ Hzoom Hbody) in Hloop.
  - exists last_zoom, bounds', out_area. split; [done |]. split; [done |].
    destruct (area_loop_ok w mapchete_file (zoom_levels out)
                (Some last_zoom) bounds' out_area ∅ Hbody)
      as (areas & Hrun & Hareas).
    rewrite Hrun in Hloop. injection Hloop as <-.
    intros z Hz. by rewrite Hareas, decide_True.
Qed.

(** C10, as amended. Without bounds from the caller, the bounds of the
    job description are taken as they are: the error "Invalid number of
    process bounds." is never raised. When they hold at least one value
    and not four, and the steps before the loop pass, the function fails
    in the loop, at the assignment that unpacks them into four
    coordinates. (Empty bounds count as no bounds.) *)
Theorem job_bounds_unchecked mapchete_file (zoom : option (list Z))
    (bounds : option (list coord)) (output_path output_format : option string) :
  truthy bounds = false →
  get_clean_configuration w mapchete_file zoom bounds
    output_path output_format
  ≠ inl (ValueError "Invalid number of process bounds.")
  ∧ resolve_bounds (yaml_load w mapchete_file) bounds
    = inr (process_bounds (yaml_load w mapchete_file))
  ∧ ∀ (rel_path : string) (zoom_levels : list Z) (last_zoom : Z)
      (bboxes : list Geometry) (job_bounds : list coord),
      isfile w mapchete_file = true →
      process_file (yaml_load w mapchete_file) = Some rel_path →
      isfile w (path_join (dirname_realpath w mapchete_file) rel_path)
      = true →
      resolve_zoom_levels (yaml_load w mapchete_file) zoom
      = inr zoom_levels →
      (∀ z, z ∈ zoom_levels → is_valid_at_zoom w z = true) →
      last zoom_levels = Some last_zoom →
      collect_bboxes w (dirname_realpath w mapchete_file)
        (at_zoom_input_files w last_zoom) [] = inr bboxes →
      process_bounds (yaml_load w mapchete_file) = Some job_bounds →
      job_bounds ≠ [] → length job_bounds ≠ 4%nat →
      get_clean_configuration w mapchete_file zoom bounds
        output_path output_format
      = inl (UnpackError (length job_bounds)).
Proof.
  intros Hnone. split; [| split].
  - unfold get_clean_configuration.
    destruct (isfile w mapchete_file); [| done]. cbn [negb].
    destruct (process_file _) as [rel_path |]; [| done].
    destruct (isfile w _); [| done]. cbn [negb].
    destruct (resolve_zoom_levels _ _) as [e | zoom_levels] eqn:Hzoom.
    { apply resolve_zoom_levels_error in Hzoom as [-> | [-> | ->]]; done. }
    cbn [bind].
    destruct (check_validity w zoom_levels None) as [e | zoom_var] eqn:Hvalid.
    { apply check_validity_error in Hvalid as [msg ->]. done. }
    cbn [bind]. rewrite (resolve_bounds_job _ _ Hnone). cbn [bind].
    destruct (area_loop _ _ _ _ _ _) as [e | areas] eqn:Hloop; [| done].
    apply area_loop_error, out_area_at_error in Hloop
      as [[msg ->] | [[msg ->] | [n ->]]]; done.
  - by apply resolve_bounds_job.
  - intros rel_path zoom_levels last_zoom bboxes job_bounds
      Hfile Hprocess Hpfile Hzoom Hvalid Hlast Hboxes Hjob Hne Hlen.
    rewrite (get_clean_configuration_loop w _ _ _ _ _ rel_path zoom_levels
               (Some job_bounds)); try done.
    + rewrite Hlast.
      rewrite (area_loop_raise w _ _ _ _ (UnpackError (length job_bounds)));
        [done | by eapply resolve_zoom_levels_nonempty |].
      apply (out_area_at_unpack w _ _ (Some job_bounds) bboxes);
        [done | by destruct job_bounds | done].
    + by rewrite resolve_bounds_job, Hjob.
Qed.

End Inversion.

Section Entries.

Context {coord Geometry : Type} `{Shapely coord Geometry} (w : World coord).

(** Two facts about the geometry library: an empty polygon is empty, and
    a union of geometries none of which meets [g] does not meet [g]. *)
Hypothesis Polygon_is_empty : is_empty (Polygon []) = true.
Hypothesis intersection_union_empty :
  ∀ (bboxes : list Geometry) (g : Geometry),
    Forall (λ bbox, is_empty (intersection bbox g) = true) bboxes →
    is_empty (intersection (cascaded_union bboxes) g) = true.


End Entries.

(** *** The interface on boxes *)




(** *** Concrete runs *)

(** C1. The job has [file2] at every zoom level and [file1] from zoom
    level 11 on; the request is [10, 11]. The input files at zoom level
    10 give the box of [file2] alone, but the entry of [process_area] for
    zoom level 10 also holds the box of [file1]: the loop looks the input
    files up at the last zoom level, 11, for every zoom level. *)
Theorem process_area_at_other_zoom :
  at_zoom_input_files (Examples.world_of Examples.minmax_job) 10
  = [("file1", None); ("file2", Some "testdata/dummy2.tif")]
  ∧ out_area_at (Examples.world_of Examples.minmax_job)
      "/job/example.mapchete" (Some 10) None
    = inr [Examples.dummy2_box]
  ∧ ∃ out,
      get_clean_configuration (Examples.world_of Examples.minmax_job)
        "/job/example.mapchete" (Some [10; 11]) None None None = inr out
      ∧ zoom_levels out = [10; 11]
      ∧ process_area out !! 10
        = Some [Examples.dummy1_box; Examples.dummy2_box]
      ∧ process_area out !! 11
        = Some [Examples.dummy1_box; Examples.dummy2_box].
Proof.
  split; [reflexivity |]. split; [vm_compute; reflexivity |].
  eexists. split; [vm_compute; reflexivity |].
  split; [reflexivity |]. split; vm_compute; reflexivity.
Qed.

(** A job description whose bounds are an empty list, with no bounds from
    the caller: the length is not 4, and the function returns. *)
Lemma empty_job_bounds_counterexample :
  length (@nil Q) ≠ 4%nat
  ∧ process_bounds (Examples.job_with (Some 5) None None (Some [])) = Some []
  ∧ ∃ out,
      get_clean_configuration
        (Examples.world_of (Examples.job_with (Some 5) None None (Some [])))
        "/job/example.mapchete" None None None None = inr out
      ∧ zoom_levels out = [5]
      ∧ process_area out !! 5 = Some [Examples.dummy2_box].
Proof.
  split; [done |]. split; [reflexivity |].
  eexists. split; [vm_compute; reflexivity |].
  split; [reflexivity | vm_compute; reflexivity].
Qed.

Lemma job_bounds_unchecked_witness :
  get_clean_configuration
    (Examples.world_of
       (Examples.job_with (Some 5) None None (Some [1; 2; 3]%Q)))
    "/job/example.mapchete" None None None None
  = inl (UnpackError 3).
Proof.
  pose proof (job_bounds_unchecked
                (Examples.world_of
                   (Examples.job_with (Some 5) None None (Some [1; 2; 3]%Q)))
                "/job/example.mapchete" None None None None eq_refl)
    as (_ & _ & Hlate).
  apply (Hlate "process.py" [5] 5 [[Examples.dummy2_box]] [1; 2; 3]%Q);
    try reflexivity; done.
Defined.


End ProcessArea.


(** ** Further properties of [get_clean_configuration] *)

Module Resolution.

Import ConfigUtils ProcessArea.

Lemma py_range_NoDup (lo hi : Z) : NoDup (py_range lo hi).
Proof.
  unfold py_range.
  assert (Inj (=) (=) (λ i : nat, lo + Z.of_nat i)) by (intros i j Hij; lia).
  apply (NoDup_fmap_2 (λ i : nat, lo + Z.of_nat i)), NoDup_seq.
Qed.

Lemma last_py_range (lo hi : Z) :
  lo ≤ hi → last (py_range lo (hi + 1)) = Some hi.
Proof.
  intros Hle. unfold py_range.
  replace (Z.to_nat (hi + 1 - lo)) with (S (Z.to_nat (hi - lo))) by lia.
  rewrite seq_S, map_app. simpl. rewrite last_snoc. f_equal. lia.
Qed.

Section Zoom.

Context {coord : Type}.
Implicit Types (job : RawConfig coord).

Lemma resolve_zoom_levels_range job (zoom : option (list Z))
    (zoom_levels : list Z) :
  resolve_zoom_levels job zoom = inr zoom_levels →
  ∃ lo hi, lo ≤ hi ∧ zoom_levels = py_range lo (hi + 1).
Proof.
  unfold resolve_zoom_levels.
  destruct (if truthy zoom then zoom else config_zoom job)
    as [[| a [| b [| c rest]]] |]; cbn -[py_range Z.ltb Z.leb];
    try discriminate.
  - intros [= <-]. exists a, a. by rewrite Range.py_range_one.
  - destruct (_ && _); [| discriminate].
    destruct (Z.ltb_spec a b); intros [= <-]; eexists _, _;
      (split; [| reflexivity]); lia.
Qed.

(** X1. Whatever the request and the job description, resolved zoom levels
    are a closed interval of integers that is not empty: some [lo ≤ hi]
    with the levels [lo, lo+1, ..., hi], each once. *)
Theorem resolved_zoom_levels_interval job (zoom : option (list Z))
    (zoom_levels : list Z) :
  resolve_zoom_levels job zoom = inr zoom_levels →
  ∃ lo hi,
    lo ≤ hi
    ∧ zoom_levels = py_range lo (hi + 1)
    ∧ (∀ z, z ∈ zoom_levels ↔ lo ≤ z ≤ hi)
    ∧ NoDup zoom_levels
    ∧ Z.of_nat (length zoom_levels) = hi - lo + 1.
Proof.
  intros (lo & hi & Hle & ->)%resolve_zoom_levels_range.
  exists lo, hi. split; [done |]. split; [done |].
  split; [intros z; rewrite Range.elem_of_py_range; lia |].
  split; [apply py_range_NoDup |]. rewrite Range.py_range_length. lia.
Qed.

(** X2. The two zoom resolvers agree on a request of one value, and on a
    request of two values that are not negative: the zoom levels of
    [get_clean_configuration] are the range from the minimum to the maximum
    that [_get_zoom] returns. *)
Theorem zoom_resolvers_agree job (w : Pyramid.World)
    (input_raster pyramid_type : string) (zoom : list Z) :
  (1 ≤ length zoom ≤ 2)%nat →
  (length zoom = 2%nat → Forall (λ i, 0 ≤ i) zoom) →
  ∃ minzoom maxzoom,
    Pyramid._get_zoom w (Some zoom) input_raster pyramid_type
    = inr (minzoom, maxzoom)
    ∧ minzoom ≤ maxzoom
    ∧ resolve_zoom_levels job (Some zoom)
      = inr (py_range minzoom (maxzoom + 1)).
Proof.
  intros Hlen Hsign.
  destruct zoom as [| a [| b [| c rest]]]; simpl in Hlen; try lia.
  - exists a, a. split; [done |]. split; [lia |].
    by rewrite Range.py_range_one.
  - specialize (Hsign eq_refl).
    apply Forall_cons in Hsign as [Ha Hb%Forall_cons_1].
    destruct Hb as [Hb _].
    exists (Z.min a b), (Z.max a b).
    split; [apply ZoomResolution.get_zoom_two |]. split; [lia |].
    by apply ZoomResolution.resolve_two.
Qed.

End Zoom.

Lemma resolved_zoom_levels_interval_witness :
  ∃ lo hi,
    lo ≤ hi
    ∧ [7; 8; 9; 10] = py_range lo (hi + 1)
    ∧ (∀ z, z ∈ [7; 8; 9; 10] ↔ lo ≤ z ≤ hi)
    ∧ NoDup [7; 8; 9; 10]
    ∧ Z.of_nat (length [7; 8; 9; 10]) = hi - lo + 1.
Proof.
  apply (resolved_zoom_levels_interval Examples.minmax_job (Some [])).
  reflexivity.
Defined.

Lemma zoom_resolvers_agree_witness :
  ∃ minzoom maxzoom,
    Pyramid._get_zoom Examples.pyramid_world (Some [12; 9]) "dem.tif" "mercator"
    = inr (minzoom, maxzoom)
    ∧ minzoom ≤ maxzoom
    ∧ resolve_zoom_levels Examples.minmax_job (Some [12; 9])
      = inr (py_range minzoom (maxzoom + 1)).
Proof.
  apply (zoom_resolvers_agree Examples.minmax_job Examples.pyramid_world
           "dem.tif" "mercator" [12; 9]).
  - simpl. lia.
  - intros _. repeat constructor; lia.
Defined.

Section Whole.

Context {coord Geometry : Type} `{Shapely coord Geometry} (w : World coord).
Implicit Types (bounds : option (list coord)) (zoom : option (list Z)).
Implicit Types (output_path output_format : option string).

Lemma check_validity_first_invalid (pre post : list Z) (z : Z)
    (zoom_var : option Z) :
  (∀ y, y ∈ pre → is_valid_at_zoom w y = true) →
  is_valid_at_zoom w z = false →
  check_validity w (pre ++ z :: post) zoom_var
  = inl (Exception_ (explain_validity_at_zoom w z)).
Proof.
  revert zoom_var. induction pre as [| y pre IH]; intros zoom_var Hpre Hz; simpl.
  - by rewrite Hz.
  - rewrite Hpre by apply list_elem_of_here.
    apply IH; [| done]. intros; apply Hpre; by apply list_elem_of_further.
Qed.

Lemma out_area_at_succeeds_iff mapchete_file (last_zoom : Z) bounds :
  (∃ out_area, out_area_at w mapchete_file (Some last_zoom) bounds = inr out_area)
  ↔ (∃ bboxes,
       collect_bboxes w (dirname_realpath w mapchete_file)
         (at_zoom_input_files w last_zoom) [] = inr bboxes)
    ∧ (truthy bounds = true → length (seq_of bounds) = 4%nat).
Proof.
  split.
  - intros [out_area Hrun].
    destruct (collect_bboxes w (dirname_realpath w mapchete_file)
                (at_zoom_input_files w last_zoom) []) as [e | bboxes] eqn:Hboxes.
    { unfold out_area_at in Hrun. by rewrite Hboxes in Hrun. }
    split; [by eexists |]. intros Hsome.
    destruct (decide (length (seq_of bounds) = 4%nat)) as [| Hlen]; [done |].
    by rewrite (out_area_at_unpack w _ _ _ _ Hboxes Hsome Hlen) in Hrun.
  - intros [[bboxes Hboxes] Hfour].
    destruct (truthy bounds) eqn:Hsome.
    + specialize (Hfour eq_refl).
      destruct bounds as [[| a [| b [| c [| d [| e rest]]]]] |]; try done.
      rewrite (out_area_at_bounds w _ _ bboxes) by done. by eexists.
    + rewrite (out_area_at_no_bounds w _ _ _ bboxes) by done. by eexists.
Qed.

(** X3. When the files are there and the zoom levels resolve, the
    configuration is checked at the zoom levels in ascending order: the
    function fails with the explanation of the first zoom level that is not
    valid, whatever the bounds and the rasters. *)
Theorem first_invalid_zoom_level mapchete_file zoom bounds
    output_path output_format (rel_path : string) (pre post : list Z) (z : Z) :
  isfile w mapchete_file = true →
  process_file (yaml_load w mapchete_file) = Some rel_path →
  isfile w (path_join (dirname_realpath w mapchete_file) rel_path) = true →
  resolve_zoom_levels (yaml_load w mapchete_file) zoom
  = inr (pre ++ z :: post) →
  (∀ y, y ∈ pre → is_valid_at_zoom w y = true) →
  is_valid_at_zoom w z = false →
  get_clean_configuration w mapchete_file zoom bounds output_path output_format
  = inl (Exception_ (explain_validity_at_zoom w z)).
Proof.
  intros Hfile Hprocess Hpfile Hzoom Hpre Hz. unfold get_clean_configuration.
  rewrite Hfile, Hprocess. cbn [negb]. rewrite Hpfile, Hzoom. cbn [negb bind].
  by rewrite check_validity_first_invalid.
Qed.

(** X4. Bounds from the caller that hold at least one value and not four
    are refused with "Invalid number of process bounds." once the zoom
    levels are resolved and valid, before any raster is opened: the bounds
    of the job description and the input files play no part. *)
Theorem caller_bounds_count mapchete_file zoom bounds
    output_path output_format (rel_path : string) (zoom_levels : list Z) :
  isfile w mapchete_file = true →
  process_file (yaml_load w mapchete_file) = Some rel_path →
  isfile w (path_join (dirname_realpath w mapchete_file) rel_path) = true →
  resolve_zoom_levels (yaml_load w mapchete_file) zoom = inr zoom_levels →
  (∀ z, z ∈ zoom_levels → is_valid_at_zoom w z = true) →
  truthy bounds = true →
  length (seq_of bounds) ≠ 4%nat →
  get_clean_configuration w mapchete_file zoom bounds output_path output_format
  = inl (ValueError "Invalid number of process bounds.").
Proof.
  intros Hfile Hprocess Hpfile Hzoom Hvalid Hsome Hlen.
  unfold get_clean_configuration.
  rewrite Hfile, Hprocess. cbn [negb]. rewrite Hpfile, Hzoom. cbn [negb bind].
  rewrite (check_validity_ok w _ _ Hvalid). cbn [bind].
  unfold resolve_bounds. rewrite Hsome.
  by destruct (Nat.eqb_spec (length (seq_of bounds)) 4).
Qed.

(** X5. The function returns a configuration exactly when: the job file
    and the process file are there, the zoom levels resolve, the
    configuration is valid at each of them, bounds from the caller (if any)
    hold four values, the rasters of the input files at the last zoom level
    open, and the effective bounds (if any) hold four values. *)
Theorem get_clean_configuration_returns_iff mapchete_file zoom bounds
    output_path output_format :
  (∃ out,
     get_clean_configuration w mapchete_file zoom bounds
       output_path output_format = inr out)
  ↔ isfile w mapchete_file = true
    ∧ (∃ rel_path,
         process_file (yaml_load w mapchete_file) = Some rel_path
         ∧ isfile w (path_join (dirname_realpath w mapchete_file) rel_path)
           = true)
    ∧ ∃ zoom_levels bounds' last_zoom bboxes,
        resolve_zoom_levels (yaml_load w mapchete_file) zoom = inr zoom_levels
        ∧ (∀ z, z ∈ zoom_levels → is_valid_at_zoom w z = true)
        ∧ resolve_bounds (yaml_load w mapchete_file) bounds = inr bounds'
        ∧ last zoom_levels = Some last_zoom
        ∧ collect_bboxes w (dirname_realpath w mapchete_file)
            (at_zoom_input_files w last_zoom) [] = inr bboxes
        ∧ (truthy bounds' = true → length (seq_of bounds') = 4%nat).
Proof.
  split.
  - intros [out Hrun].
    pose proof (get_clean_configuration_inv w _ _ _ _ _ _ Hrun)
      as (bounds' & Hzoom & Hvalid & Hbounds & Hloop).
    unfold get_clean_configuration in Hrun.
    destruct (isfile w mapchete_file); [| done]. cbn [negb] in Hrun.
    destruct (process_file _) as [rel_path |]; [| done].
    destruct (isfile w (path_join _ rel_path)) eqn:Hpfile; [| done].
    split; [done |]. split; [by exists rel_path |].
    pose proof (resolve_zoom_levels_nonempty _ _ _ Hzoom) as Hne.
    destruct (last (zoom_levels out)) as [last_zoom |] eqn:Hlast;
      [| by apply last_None in Hlast].
    destruct (out_area_at w mapchete_file (Some last_zoom) bounds')
      as [e | out_area] eqn:Hbody.
    { by rewrite (area_loop_raise w _ _ _ _ e ∅ Hne Hbody) in Hloop. }
    destruct (proj1 (out_area_at_succeeds_iff mapchete_file last_zoom bounds'))
      as [[bboxes Hboxes] Hfour]; [by eexists |].
    by exists (zoom_levels out), bounds', last_zoom, bboxes.
  - intros (Hfile & (rel_path & Hprocess & Hpfile)
            & zoom_levels & bounds' & last_zoom & bboxes
            & Hzoom & Hvalid & Hbounds & Hlast & Hboxes & Hfour).
    rewrite (get_clean_configuration_loop w _ _ _ _ _ rel_path zoom_levels
               bounds'); try done.
    rewrite Hlast.
    destruct (proj2 (out_area_at_succeeds_iff mapchete_file last_zoom bounds'))
      as [out_area Hbody]; [split; [by eexists | done] |].
    destruct (area_loop_ok w mapchete_file zoom_levels (Some last_zoom)
                bounds' out_area ∅ Hbody) as (areas & -> & _).
    by eexists.
Qed.


(** X7. In a returned configuration the zoom levels are not empty, the
    configuration is valid at each of them, and [process_area] has a key
    for each zoom level and no other key. *)
Theorem returned_configuration_keys mapchete_file zoom bounds
    output_path output_format (out : OutConfig Geometry) :
  get_clean_configuration w mapchete_file zoom bounds output_path output_format
  = inr out →
  zoom_levels out ≠ []
  ∧ (∀ z, z ∈ zoom_levels out → is_valid_at_zoom w z = true)
  ∧ dom (process_area out) = list_to_set (zoom_levels out)
  ∧ size (process_area out) = length (zoom_levels out).
Proof.
  intros Hrun.
  pose proof (get_clean_configuration_inv w _ _ _ _ _ _ Hrun)
    as (bounds' & Hzoom & Hvalid & Hbounds & Hloop).
  pose proof (resolve_zoom_levels_nonempty _ _ _ Hzoom) as Hne.
  split; [done |]. split; [done |].
  destruct (out_area_at w mapchete_file (last (zoom_levels out)) bounds')
    as [e | out_area] eqn:Hbody.
  { by rewrite (area_loop_raise w _ _ _ _ e ∅ Hne Hbody) in Hloop. }
  destruct (area_loop_ok w mapchete_file (zoom_levels out)
              (last (zoom_levels out)) bounds' out_area ∅ Hbody)
    as (areas & Hareas & Hlookup).
  rewrite Hareas in Hloop. injection Hloop as <-.
  assert (Hdom : dom areas = list_to_set (zoom_levels out)).
  { apply set_eq. intros z.
    rewrite elem_of_dom, elem_of_list_to_set, Hlookup.
    destruct (decide (z ∈ zoom_levels out)).
    - split; [done | by eexists].
    - rewrite lookup_empty. split; [by intros [] | done]. }
  split; [done |].
  rewrite <- size_dom, Hdom, size_list_to_set; [done |].
  destruct (resolve_zoom_levels_range _ _ _ Hzoom) as (lo & hi & _ & ->).
  apply py_range_NoDup.
Qed.

(** X8. In a returned configuration every zoom level has the same entry:
    the area computed, with the effective bounds, from the input files at
    the last (highest) zoom level. *)
Theorem entries_are_last_zoom_area mapchete_file zoom bounds
    output_path output_format (out : OutConfig Geometry) :
  get_clean_configuration w mapchete_file zoom bounds output_path output_format
  = inr out →
  ∃ last_zoom bounds' out_area,
    last (zoom_levels out) = Some last_zoom
    ∧ (∀ z, z ∈ zoom_levels out → z ≤ last_zoom)
    ∧ resolve_bounds (yaml_load w mapchete_file) bounds = inr bounds'
    ∧ out_area_at w mapchete_file (Some last_zoom) bounds' = inr out_area
    ∧ ∀ z, process_area out !! z
           = if decide (z ∈ zoom_levels out) then Some out_area else None.
Proof.
  intros Hrun.
  pose proof (get_clean_configuration_inv w _ _ _ _ _ _ Hrun)
    as (bounds' & Hzoom & Hvalid & Hbounds & Hloop).
  pose proof (resolve_zoom_levels_nonempty _ _ _ Hzoom) as Hne.
  destruct (last (zoom_levels out)) as [last_zoom |] eqn:Hlast;
    [| by apply last_None in Hlast].
  destruct (out_area_at w mapchete_file (Some last_zoom) bounds')
    as [e | out_area] eqn:Hbody.
  { by rewrite (area_loop_raise w _ _ _ _ e ∅ Hne Hbody) in Hloop. }
  destruct (area_loop_ok w mapchete_file (zoom_levels out) (Some last_zoom)
              bounds' out_area ∅ Hbody) as (areas & Hareas & Hlookup).
  rewrite Hareas in Hloop. injection Hloop as <-.
  exists last_zoom, bounds', out_area. split; [done |]. split.
  { destruct (resolve_zoom_levels_range _ _ _ Hzoom) as (lo & hi & Hle & Heq).
    rewrite Heq in Hlast |- *. rewrite (last_py_range lo hi Hle) in Hlast.
    injection Hlast as <-. intros z. rewrite Range.elem_of_py_range. lia. }
  split; [done |]. split; [done |].
  intros z. rewrite Hlookup. by destruct (decide (z ∈ zoom_levels out)).
Qed.





(** X10. An empty zoom request and empty bounds count as none: the job
    description is used as if the caller had passed nothing. *)
Theorem empty_parameters_are_none mapchete_file zoom bounds
    output_path output_format :
  get_clean_configuration w mapchete_file (Some []) bounds
    output_path output_format
  = get_clean_configuration w mapchete_file None bounds
      output_path output_format
  ∧ get_clean_configuration w mapchete_file zoom (Some [])
      output_path output_format
    = get_clean_configuration w mapchete_file zoom None
        output_path output_format.
Proof. split; reflexivity. Qed.

(** X11. The loop over the input table returns one polygon per input file
    whose path is set, in the order of the table, after the polygons it
    started with, exactly when each of these rasters opens; input files
    whose path is [None] or empty are passed over. *)
Theorem collect_bboxes_set_paths (config_dir : string)
    (input_files : list (string * option string))
    (bboxes result : list Geometry) :
  collect_bboxes w config_dir input_files bboxes = inr result
  ↔ ∃ rasters,
      Forall2 (λ rel_path b,
                 raster_bounds w (path_join config_dir rel_path) = Some b)
        (set_paths input_files) rasters
      ∧ result = bboxes ++ map bounds_polygon rasters.
Proof.
  revert bboxes.
  induction input_files as [| [input_file rel_path] rest IH]; intros bboxes.
  - simpl. split.
    + intros [= <-]. exists []. split; [constructor | by rewrite app_nil_r].
    + intros (rasters & Hall & ->). apply Forall2_nil_inv_l in Hall as ->.
      by rewrite app_nil_r.
  - cbn [collect_bboxes set_paths flat_map snd].
    destruct (truthy_str rel_path); [| apply IH].
    cbn [app].
    destruct (raster_bounds w (path_join config_dir (default "" rel_path)))
      as [[[[l b] r] t] |] eqn:Hopen.
    + rewrite IH. split.
      * intros (rasters & Hall & ->). exists ((l, b, r, t) :: rasters).
        split; [by constructor |]. simpl. by rewrite <- app_assoc.
      * intros (rasters & Hall & ->).
        apply Forall2_cons_inv_l in Hall as (b0 & rasters' & Hb0 & Hall & ->).
        rewrite Hopen in Hb0. injection Hb0 as <-.
        exists rasters'. split; [done |]. simpl. by rewrite <- app_assoc.
    + split; [done |]. intros (rasters & Hall & _).
      apply Forall2_cons_inv_l in Hall as (b0 & rasters' & Hb0 & _ & _).
      by rewrite Hopen in Hb0.
Qed.


End Whole.

Lemma first_invalid_zoom_level_witness :
  get_clean_configuration (Examples.shallow_world_of Examples.minmax_job)
    "/job/example.mapchete" None None None None
  = inl (Exception_ "no input at zoom 9").
Proof.
  apply (first_invalid_zoom_level
           (Examples.shallow_world_of Examples.minmax_job)
           "/job/example.mapchete" None None None None
           "process.py" [7; 8] [10] 9); try reflexivity.
  intros y Hy. apply elem_of_cons in Hy as [-> | Hy]; [reflexivity |].
  apply list_elem_of_singleton in Hy as ->. reflexivity.
Defined.

Lemma caller_bounds_count_witness :
  get_clean_configuration (Examples.world_of Examples.minmax_job)
    "/job/example.mapchete" None (Some [1; 2; 3]%Q) None None
  = inl (ValueError "Invalid number of process bounds.").
Proof.
  apply (caller_bounds_count (Examples.world_of Examples.minmax_job)
           "/job/example.mapchete" None (Some [1; 2; 3]%Q) None None
           "process.py" [7; 8; 9; 10]); try reflexivity.
  simpl. lia.
Defined.


Lemma returned_configuration_keys_witness :
  ∃ out,
    get_clean_configuration (Examples.world_of Examples.minmax_job)
      "/job/example.mapchete" None None None None = inr out
    ∧ zoom_levels out = [7; 8; 9; 10]
    ∧ dom (process_area out) = list_to_set (zoom_levels out)
    ∧ size (process_area out) = 4%nat.
Proof.
  destruct (get_clean_configuration (Examples.world_of Examples.minmax_job)
              "/job/example.mapchete" None None None None)
    as [e | out] eqn:Hrun; [by vm_compute in Hrun |].
  pose proof (returned_configuration_keys
                (Examples.world_of Examples.minmax_job)
                "/job/example.mapchete" None None None None out Hrun)
    as (_ & _ & Hdom & Hsize).
  pose proof (ProcessArea.get_clean_configuration_inv _ _ _ _ _ _ _ Hrun)
    as (_ & Hzoom & _).
  change (@inr PyException _ [7; 8; 9; 10] = inr (zoom_levels out)) in Hzoom.
  injection Hzoom as Hzoom.
  rewrite <- Hzoom in Hdom, Hsize. exists out. rewrite <- Hzoom.
  by repeat split.
Defined.

Lemma entries_are_last_zoom_area_witness :
  ∃ out,
    get_clean_configuration (Examples.world_of Examples.minmax_job)
      "/job/example.mapchete" (Some [10; 11]) None None None = inr out
    ∧ ∃ out_area,
        out_area_at (Examples.world_of Examples.minmax_job)
          "/job/example.mapchete" (Some 11) None = inr out_area
        ∧ process_area out !! 10 = Some out_area
        ∧ process_area out !! 11 = Some out_area
        ∧ process_area out !! 12 = None.
Proof.
  destruct (get_clean_configuration (Examples.world_of Examples.minmax_job)
              "/job/example.mapchete" (Some [10; 11]) None None None)
    as [e | out] eqn:Hrun; [by vm_compute in Hrun |].
  pose proof (entries_are_last_zoom_area
                (Examples.world_of Examples.minmax_job)
                "/job/example.mapchete" (Some [10; 11]) None None None out Hrun)
    as (last_zoom & bounds' & out_area & Hlast & _ & Hbounds & Harea & Hlookup).
  pose proof (ProcessArea.get_clean_configuration_inv _ _ _ _ _ _ _ Hrun)
    as (_ & Hzoom & _).
  change (@inr PyException _ [10; 11] = inr (zoom_levels out)) in Hzoom.
  injection Hzoom as Hzoom.
  rewrite <- Hzoom in Hlast, Hlookup. injection Hlast as <-.
  injection Hbounds as <-.
  exists out. split; [done |]. exists out_area. split; [done |].
  rewrite !Hlookup. by repeat split.
Defined.



End Resolution.


(** ** Further properties of [raster2pyramid] *)

Module PyramidJob.

Import Pyramid Rescale.

(** The loop of the "minmax_scale" method reads the bands in order. *)
Lemma minmax_loop (input_raster : Raster) (k s : nat)
    (acc : list ScalePair) :
  (s + k ≤ length input_raster)%nat →
  scale_loop (map (λ i : nat, 1 + Z.of_nat i) (seq s k))
    (λ index,
       band <- read input_raster index ;;
       ret (Some (band_min band), Some (band_max band))) acc
  = inr (acc ++ map (λ band, (Some (band_min band), Some (band_max band)))
                  (take k (drop s input_raster))).
Proof.
  revert s acc. induction k as [| k IH]; intros s acc Hlen.
  - simpl. by rewrite app_nil_r.
  - cbn [seq map scale_loop]. unfold read at 1.
    destruct (Z.ltb_spec (1 + Z.of_nat s) 1); [lia |].
    replace (Z.to_nat (1 + Z.of_nat s - 1)) with s by lia.
    destruct (input_raster !! s) as [band |] eqn:Hband;
      [| apply lookup_ge_None in Hband; lia].
    cbn [bind ret]. rewrite IH by lia.
    rewrite (drop_S _ _ _ Hband). cbn [take map].
    by rewrite <- app_assoc.
Qed.

(** What the requested method yields for at least one and at most [count]
    output bands. *)
Lemma requested_scales_eval (input_raster : Raster) (input_dtype : string)
    (output_bands : Z) (scale_method : option string) :
  1 ≤ output_bands ≤ count input_raster →
  requested_scales input_raster input_dtype output_bands scale_method
  = if bool_decide (scale_method = Some "dtype_scale") then
      match DTYPE_RANGES !! input_dtype with
      | Some (lo, hi) =>
          inr (replicate (Z.to_nat output_bands) (Some lo, Some hi))
      | None => inl (KeyError input_dtype)
      end
    else if bool_decide (scale_method = Some "minmax_scale") then
      inr (map (λ band, (Some (band_min band), Some (band_max band)))
             (take (Z.to_nat output_bands) input_raster))
    else if bool_decide (scale_method = Some "crop") then
      inr (replicate (Z.to_nat output_bands) (Some (PyInt 0), Some (PyInt 255)))
    else inr [].
Proof.
  intros Hbands. unfold requested_scales, count in *.
  repeat case_bool_decide; try done.
  - destruct (DTYPE_RANGES !! input_dtype) as [[lo hi] |].
    + rewrite (scale_loop_const _ _ (Some lo, Some hi)) by done.
      by rewrite band_indexes_length.
    + apply scale_loop_raise; [| done]. apply Range.py_range_nonempty. lia.
  - unfold py_range. replace (output_bands + 1 - 1) with output_bands by lia.
    rewrite minmax_loop by lia. by rewrite drop_0.
  - rewrite (scale_loop_const _ _ (Some (PyInt 0), Some (PyInt 255))) by done.
    by rewrite band_indexes_length.
Qed.

Lemma uint8_override_eval (input_dtype : string) (output_bands : Z)
    (scale_method : option string) (scales_minmax : list ScalePair) :
  uint8_override input_dtype output_bands scale_method scales_minmax
  = inr (if String.eqb input_dtype "uint8"
         then (None, replicate (Z.to_nat output_bands) (None, None))
         else (scale_method, scales_minmax)).
Proof.
  unfold uint8_override. destruct (String.eqb input_dtype "uint8"); [| done].
  rewrite (scale_loop_const _ _ (None, None)) by done.
  by rewrite band_indexes_length.
Qed.

Lemma capped_band_count_bounds (output_format : option string)
    (band : Band) (rest : list Band) :
  1 ≤ capped_band_count output_format (band :: rest) ≤ count (band :: rest).
Proof.
  unfold capped_band_count, count.
  destruct (bool_decide _); cbn [andb length];
    [destruct (Z.ltb_spec 3 (Z.of_nat (S (length rest)))) |]; lia.
Qed.

Lemma get_zoom_inv (w : World) (zoom : option (list Z))
    (input_raster pyramid_type : string) :
  match _get_zoom w zoom input_raster pyramid_type with
  | inr zooms =>
      (length (seq_of zoom) ≤ 2)%nat
      ∧ (truthy zoom = true → fst zooms ≤ snd zooms)
      ∧ (truthy zoom = false →
         zooms = (1, get_best_zoom_level w input_raster pyramid_type))
  | inl e => (2 < length (seq_of zoom))%nat ∧ e = UnboundLocalError "minzoom"
  end.
Proof.
  unfold _get_zoom.
  destruct zoom as [[| a [| b [| c rest]]] |]; cbn -[Z.ltb];
    try (split; [lia |]; split; [done | done || lia]); try (split; [lia | done]).
  destruct (Z.ltb_spec a b); cbn; (split; [lia |]); (split; [lia | done]).
Qed.

Section Job.

Context (w : World) (input_file output_dir : string) (options : Options).

#[local] Abbreviation config_of zooms band rest plan :=
  {| process := "mapchete.processes.pyramid.tilify";
     output_path := output_dir;
     output_format_ := output_format options;
     output_bands := capped_band_count (output_format options) (band :: rest);
     output_dtype :=
       if bool_decide (output_format options = Some "PNG")
          && (3 <? count (band :: rest))
       then "uint8" else band_dtype band;
     pyramid_pixelbuffer := 5;
     pyramid_grid := pyramid_type options;
     scale_method_ := fst plan;
     scales_minmax := snd plan;
     input_raster_ := input_file;
     config_dir := getcwd w;
     zoom_levels_min := fst zooms;
     zoom_levels_max := snd zooms;
     nodataval :=
       if truthy_num (band_nodataval band)
       then default (PyInt 0) (band_nodataval band)
       else PyInt 0;
     resampling_ := resampling options;
     bounds_ := bounds options;
     baselevel_zoom := snd zooms;
     baselevel_resampling := resampling options;
     mode := if overwrite options then "overwrite" else "continue" |}.

(** Once the zoom range is there and the raster is open with a first band,
    what remains is the choice of the pairs. *)
Lemma raster2pyramid_eval (zooms : Z * Z) (band : Band) (rest : list Band) :
  _get_zoom w (zoom options) input_file (pyramid_type options) = inr zooms →
  rasterio_open w input_file = Some (band :: rest) →
  raster2pyramid w input_file output_dir options
  = match requested_scales (band :: rest) (band_dtype band)
            (capped_band_count (output_format options) (band :: rest))
            (scale_method options) with
    | inl e => inl e
    | inr scales =>
        inr (config_of zooms band rest
               (if String.eqb (band_dtype band) "uint8"
                then (None,
                      replicate
                        (Z.to_nat (capped_band_count (output_format options)
                                     (band :: rest))) (None, None))
                else (scale_method options, scales)))
    end.
Proof.
  intros Hzooms Hopen. unfold raster2pyramid. rewrite Hzooms, Hopen.
  cbn [bind ret item0 dtypes nodatavals map].
  fold (capped_band_count (output_format options) (band :: rest)).
  destruct (requested_scales _ _ _ _) as [e | scales]; [done |].
  cbn [bind]. by rewrite uint8_override_eval.
Qed.

(** X13. [raster2pyramid] builds a configuration exactly when the zoom
    request holds at most two values, the raster opens and has a band, and,
    for the method "dtype_scale", the data type of its first band is in
    [DTYPE_RANGES]. No other scale method, output format or band content
    makes it fail. *)
Theorem raster2pyramid_returns_iff :
  (∃ config, raster2pyramid w input_file output_dir options = inr config)
  ↔ (length (seq_of (zoom options)) ≤ 2)%nat
    ∧ ∃ band rest,
        rasterio_open w input_file = Some (band :: rest)
        ∧ (scale_method options = Some "dtype_scale" →
           is_Some (DTYPE_RANGES !! band_dtype band)).
Proof.
  pose proof (get_zoom_inv w (zoom options) input_file (pyramid_type options))
    as Hzoom.
  split.
  - intros [config Hrun].
    destruct (_get_zoom w _ _ _) as [e | zooms] eqn:Hzooms.
    { unfold raster2pyramid in Hrun. by rewrite Hzooms in Hrun. }
    destruct Hzoom as [Hlen _]. split; [done |].
    destruct (rasterio_open w input_file) as [[| band rest] |] eqn:Hopen.
    + unfold raster2pyramid in Hrun. by rewrite Hzooms, Hopen in Hrun.
    + exists band, rest. split; [done |]. intros Hmethod.
      rewrite (raster2pyramid_eval zooms band rest Hzooms Hopen) in Hrun.
      rewrite requested_scales_eval in Hrun
        by apply capped_band_count_bounds.
      rewrite Hmethod, bool_decide_eq_true_2 in Hrun by done.
      by destruct (DTYPE_RANGES !! band_dtype band).
    + unfold raster2pyramid in Hrun. by rewrite Hzooms, Hopen in Hrun.
  - intros (Hlen & band & rest & Hopen & Htable).
    destruct (_get_zoom w _ _ _) as [e | zooms] eqn:Hzooms;
      [destruct Hzoom; lia |].
    rewrite (raster2pyramid_eval zooms band rest Hzooms Hopen).
    rewrite requested_scales_eval by apply capped_band_count_bounds.
    case_bool_decide as Hmethod.
    + destruct (Htable Hmethod) as [[lo hi] ->]. by eexists.
    + repeat case_bool_decide; by eexists.
Qed.


(** X15. With the method "minmax_scale" and an input that is not
    [uint8], the pairs of the configuration are the minimum and maximum of
    the first [output_bands] bands of the raster, band by band and in their
    order; a band beyond the output band count is not read. *)
Theorem minmax_scale_plan (input_raster : Raster) (input_dtype : string) :
  (length (seq_of (zoom options)) ≤ 2)%nat →
  rasterio_open w input_file = Some input_raster →
  dtypes input_raster !! 0%nat = Some input_dtype →
  input_dtype ≠ "uint8" →
  scale_method options = Some "minmax_scale" →
  ∃ config,
    raster2pyramid w input_file output_dir options = inr config
    ∧ scale_method_ config = Some "minmax_scale"
    ∧ scales_minmax config
      = map (λ band, (Some (band_min band), Some (band_max band)))
          (take (Z.to_nat (output_bands config)) input_raster)
    ∧ Z.of_nat (length (scales_minmax config)) = output_bands config.
Proof.
  intros Hlen Hopen Hdtype Hnot8 Hmethod.
  destruct (get_zoom_total w (zoom options) input_file (pyramid_type options)
              Hlen) as [zooms Hzooms].
  destruct input_raster as [| band rest]; [done |].
  injection Hdtype as Hdtype.
  pose proof (capped_band_count_bounds (output_format options) band rest)
    as Hbands.
  rewrite (raster2pyramid_eval zooms band rest Hzooms Hopen).
  rewrite requested_scales_eval by done.
  rewrite Hmethod, bool_decide_eq_false_2, bool_decide_eq_true_2 by done.
  rewrite Hdtype, (proj2 (String.eqb_neq _ _) Hnot8).
  eexists. split; [reflexivity |]. cbn [scale_method_ scales_minmax
    output_bands fst snd].
  split; [done |]. split; [done |].
  rewrite length_map, length_take. unfold count in Hbands. lia.
Qed.

(** X16. For an input that is not [uint8]: with the method "crop" every
    output band gets the pair (0, 255); with no method, or one that is none
    of "dtype_scale", "minmax_scale" and "crop", the configuration keeps
    the method as given and holds no pair at all. *)
Theorem crop_and_unknown_scale_plan (input_raster : Raster)
    (input_dtype : string) :
  (length (seq_of (zoom options)) ≤ 2)%nat →
  rasterio_open w input_file = Some input_raster →
  dtypes input_raster !! 0%nat = Some input_dtype →
  input_dtype ≠ "uint8" →
  scale_method options ≠ Some "dtype_scale" →
  scale_method options ≠ Some "minmax_scale" →
  ∃ config,
    raster2pyramid w input_file output_dir options = inr config
    ∧ scale_method_ config = scale_method options
    ∧ scales_minmax config
      = if bool_decide (scale_method options = Some "crop")
        then replicate (Z.to_nat (output_bands config))
               (Some (PyInt 0), Some (PyInt 255))
        else [].
Proof.
  intros Hlen Hopen Hdtype Hnot8 Hnot_dtype Hnot_minmax.
  destruct (get_zoom_total w (zoom options) input_file (pyramid_type options)
              Hlen) as [zooms Hzooms].
  destruct input_raster as [| band rest]; [done |].
  injection Hdtype as Hdtype.
  rewrite (raster2pyramid_eval zooms band rest Hzooms Hopen).
  rewrite requested_scales_eval by apply capped_band_count_bounds.
  rewrite !bool_decide_eq_false_2 by done.
  rewrite Hdtype, (proj2 (String.eqb_neq _ _) Hnot8).
  case_bool_decide; eexists; (split; [reflexivity |]); by cbn.
Qed.

(** X17. The output of a built configuration: at least one band and at
    most the bands of the raster, at most three for a PNG; the band count
    is reduced only for a PNG of more than three bands, to 3, and then, and
    only then, the output data type is forced to "uint8"; otherwise it is
    the data type of the first band. The nodata value is the one of the
    first band, and 0 when that is missing or zero. *)
Theorem output_specification (config : Config) (input_raster : Raster) :
  raster2pyramid w input_file output_dir options = inr config →
  rasterio_open w input_file = Some input_raster →
  1 ≤ output_bands config ≤ count input_raster
  ∧ (output_format options = Some "PNG" → output_bands config ≤ 3)
  ∧ (output_bands config ≠ count input_raster →
     output_format options = Some "PNG" ∧ 3 < count input_raster
     ∧ output_bands config = 3 ∧ output_dtype config = "uint8")
  ∧ (output_bands config = count input_raster →
     dtypes input_raster !! 0%nat = Some (output_dtype config))
  ∧ nodataval config
    = match nodatavals input_raster !! 0%nat with
      | Some (Some (PyInt z)) => if z =? 0 then PyInt 0 else PyInt z
      | Some (Some (PyFloat f)) =>
          if PrimFloat.eqb f 0%float then PyInt 0 else PyFloat f
      | _ => PyInt 0
      end.
Proof.
  intros Hrun Hopen.
  destruct (_get_zoom w (zoom options) input_file (pyramid_type options))
    as [e | zooms] eqn:Hzooms.
  { unfold raster2pyramid in Hrun. by rewrite Hzooms in Hrun. }
  destruct input_raster as [| band rest].
  { unfold raster2pyramid in Hrun. by rewrite Hzooms, Hopen in Hrun. }
  rewrite (raster2pyramid_eval zooms band rest Hzooms Hopen) in Hrun.
  destruct (requested_scales _ _ _ _) as [e | scales]; [done |].
  injection Hrun as <-. cbn [output_bands output_dtype nodataval].
  pose proof (capped_band_count_bounds (output_format options) band rest)
    as Hbands.
  unfold capped_band_count in *.
  split; [done |]. split; [| split; [| split]].
  - intros ->. rewrite bool_decide_eq_true_2 by done. cbn [andb].
    destruct (Z.ltb_spec 3 (count (band :: rest))); lia.
  - case_bool_decide as Hpng; cbn [andb]; [| done].
    destruct (Z.ltb_spec 3 (count (band :: rest))); [| done].
    by intros _.
  - case_bool_decide as Hpng; cbn [andb]; [| done].
    destruct (Z.ltb_spec 3 (count (band :: rest))); [lia | done].
  - cbn. destruct (band_nodataval band) as [[z | f] |]; cbn; [| | done].
    + by destruct (z =? 0).
    + by destruct (PrimFloat.eqb f 0).
Qed.

(** X18. The number of pairs of a built configuration: one per output
    band when the method is "dtype_scale", "minmax_scale" or "crop", or
    when the first band is [uint8]; none otherwise. *)
Theorem scale_plan_length (config : Config) (input_raster : Raster)
    (input_dtype : string) :
  raster2pyramid w input_file output_dir options = inr config →
  rasterio_open w input_file = Some input_raster →
  dtypes input_raster !! 0%nat = Some input_dtype →
  if bool_decide (input_dtype = "uint8"
                  ∨ scale_method options = Some "dtype_scale"
                  ∨ scale_method options = Some "minmax_scale"
                  ∨ scale_method options = Some "crop")
  then Z.of_nat (length (scales_minmax config)) = output_bands config
  else scales_minmax config = [].
Proof.
  intros Hrun Hopen Hdtype.
  destruct (_get_zoom w (zoom options) input_file (pyramid_type options))
    as [e | zooms] eqn:Hzooms.
  { unfold raster2pyramid in Hrun. by rewrite Hzooms in Hrun. }
  destruct input_raster as [| band rest]; [done |].
  injection Hdtype as Hdtype.
  pose proof (capped_band_count_bounds (output_format options) band rest)
    as Hbands.
  rewrite (raster2pyramid_eval zooms band rest Hzooms Hopen) in Hrun.
  rewrite requested_scales_eval in Hrun by done.
  rewrite Hdtype in Hrun. unfold count in Hbands.
  destruct (String.eqb_spec input_dtype "uint8") as [H8 | H8].
  { rewrite bool_decide_eq_true_2 by (by left).
    destruct (if bool_decide (scale_method options = Some "dtype_scale")
              then _ else _) as [e | scales]; [done |].
    injection Hrun as <-. cbn. rewrite length_replicate. lia. }
  destruct (decide (scale_method options = Some "dtype_scale")) as [Hd | Hd].
  { rewrite bool_decide_eq_true_2 in Hrun by done.
    rewrite bool_decide_eq_true_2 by auto.
    destruct (DTYPE_RANGES !! input_dtype) as [[lo hi] |]; [| done].
    injection Hrun as <-. cbn. rewrite length_replicate. lia. }
  rewrite (bool_decide_eq_false_2 _ Hd) in Hrun.
  destruct (decide (scale_method options = Some "minmax_scale")) as [Hm | Hm].
  { rewrite bool_decide_eq_true_2 in Hrun by done.
    rewrite bool_decide_eq_true_2 by auto.
    injection Hrun as <-. cbn. rewrite length_map, length_take. lia. }
  rewrite (bool_decide_eq_false_2 _ Hm) in Hrun.
  destruct (decide (scale_method options = Some "crop")) as [Hc | Hc].
  { rewrite bool_decide_eq_true_2 in Hrun by done.
    rewrite bool_decide_eq_true_2 by auto.
    injection Hrun as <-. cbn. rewrite length_replicate. lia. }
  rewrite (bool_decide_eq_false_2 _ Hc) in Hrun.
  rewrite bool_decide_eq_false_2 by (intros [? | [? | [? | ?]]]; done).
  by injection Hrun as <-.
Qed.

(** X19. The zoom fields of a built configuration are the range of
    [_get_zoom]; the base level is the maximum zoom. With a zoom request the
    minimum is at most the maximum; without one the minimum is 1 and the
    maximum is the estimate, whatever it is. *)
Theorem zoom_fields (config : Config) :
  raster2pyramid w input_file output_dir options = inr config →
  _get_zoom w (zoom options) input_file (pyramid_type options)
  = inr (zoom_levels_min config, zoom_levels_max config)
  ∧ baselevel_zoom config = zoom_levels_max config
  ∧ (truthy (zoom options) = true →
     zoom_levels_min config ≤ zoom_levels_max config)
  ∧ (truthy (zoom options) = false →
     zoom_levels_min config = 1
     ∧ zoom_levels_max config
       = get_best_zoom_level w input_file (pyramid_type options)).
Proof.
  intros Hrun.
  pose proof (get_zoom_inv w (zoom options) input_file (pyramid_type options))
    as Hzoom.
  destruct (_get_zoom w (zoom options) input_file (pyramid_type options))
    as [e | zooms] eqn:Hzooms.
  { unfold raster2pyramid in Hrun. by rewrite Hzooms in Hrun. }
  destruct (rasterio_open w input_file) as [[| band rest] |] eqn:Hopen;
    try (unfold raster2pyramid in Hrun; by rewrite Hzooms, Hopen in Hrun).
  rewrite (raster2pyramid_eval zooms band rest Hzooms Hopen) in Hrun.
  destruct (requested_scales _ _ _ _) as [e | scales]; [done |].
  injection Hrun as <-. cbn [zoom_levels_min zoom_levels_max baselevel_zoom].
  destruct Hzoom as (_ & Hle & Hnone).
  split; [by destruct zooms |]. split; [done |]. split; [done |].
  intros Hno. by rewrite (Hnone Hno).
Qed.

End Job.

Lemma raster2pyramid_bounds (w : World) (input_file output_dir : string)
    (options : Options) (config : Config) :
  raster2pyramid w input_file output_dir options = inr config →
  bounds_ config = bounds options.
Proof.
  intros Hrun.
  destruct (_get_zoom w (zoom options) input_file (pyramid_type options))
    as [e | zooms] eqn:Hzooms.
  { unfold raster2pyramid in Hrun. by rewrite Hzooms in Hrun. }
  destruct (rasterio_open w input_file) as [[| band rest] |] eqn:Hopen;
    try (unfold raster2pyramid in Hrun; by rewrite Hzooms, Hopen in Hrun).
  rewrite (raster2pyramid_eval w input_file output_dir options zooms band rest
             Hzooms Hopen) in Hrun.
  destruct (requested_scales _ _ _ _) as [e | scales]; [done |].
  by injection Hrun as <-.
Qed.

(** X20. The command passes empty bounds on as no bounds: a configuration
    it builds never holds an empty list of bounds, and holds the caller's
    bounds when these are not empty. The [debug] flag changes nothing. *)
Theorem pyramid_command_bounds (w : World) (input_raster output_dir : string)
    (pyramid_type : string) (output_format resampling_method : option string)
    (scale_method : option string) (zoom : option (list Z))
    (bounds : option (list PyNum)) (overwrite debug : bool) :
  pyramid w input_raster output_dir pyramid_type output_format
    resampling_method scale_method zoom bounds overwrite debug
  = pyramid w input_raster output_dir pyramid_type output_format
      resampling_method scale_method zoom
      (if truthy bounds then bounds else None) overwrite (negb debug)
  ∧ ∀ config,
      pyramid w input_raster output_dir pyramid_type output_format
        resampling_method scale_method zoom bounds overwrite debug
      = inr config →
      bounds_ config ≠ Some []
      ∧ bounds_ config = if truthy bounds then bounds else None.
Proof.
  split.
  - unfold pyramid. by destruct bounds as [[| b rest] |].
  - intros config Hrun%raster2pyramid_bounds. cbn [Pyramid.bounds] in Hrun.
    rewrite Hrun. split; [| done]. by destruct bounds as [[| b rest] |].
Qed.


Lemma minmax_scale_plan_witness :
  ∃ config,
    raster2pyramid Examples.pyramid_world "dem.tif" "out"
      (Examples.options_with (Some "minmax_scale") None None) = inr config
    ∧ scale_method_ config = Some "minmax_scale"
    ∧ scales_minmax config
      = map (λ band, (Some (band_min band), Some (band_max band)))
          (take (Z.to_nat (output_bands config))
             [Examples.uint16_band; Examples.uint16_band])
    ∧ Z.of_nat (length (scales_minmax config)) = output_bands config.
Proof.
  apply (minmax_scale_plan Examples.pyramid_world "dem.tif" "out"
           (Examples.options_with (Some "minmax_scale") None None)
           [Examples.uint16_band; Examples.uint16_band] "uint16");
    try reflexivity; [simpl; lia | discriminate].
Defined.

Lemma crop_and_unknown_scale_plan_witness :
  (∃ config,
     raster2pyramid Examples.pyramid_world "dem.tif" "out"
       (Examples.options_with (Some "crop") None None) = inr config
     ∧ scale_method_ config = Some "crop"
     ∧ scales_minmax config
       = replicate (Z.to_nat (output_bands config))
           (Some (PyInt 0), Some (PyInt 255)))
  ∧ (∃ config,
       raster2pyramid Examples.pyramid_world "dem.tif" "out"
         (Examples.options_with (Some "stretch") None None) = inr config
       ∧ scale_method_ config = Some "stretch"
       ∧ scales_minmax config = []).
Proof.
  split.
  - apply (crop_and_unknown_scale_plan Examples.pyramid_world "dem.tif" "out"
             (Examples.options_with (Some "crop") None None)
             [Examples.uint16_band; Examples.uint16_band] "uint16");
      try reflexivity; try discriminate. simpl; lia.
  - apply (crop_and_unknown_scale_plan Examples.pyramid_world "dem.tif" "out"
             (Examples.options_with (Some "stretch") None None)
             [Examples.uint16_band; Examples.uint16_band] "uint16");
      try reflexivity; try discriminate. simpl; lia.
Defined.

Lemma output_specification_witness :
  ∃ config,
    raster2pyramid Examples.pyramid_world "rgba.tif" "out"
      (Examples.options_with None (Some "PNG") None) = inr config
    ∧ output_bands config = 3
    ∧ output_dtype config = "uint8"
    ∧ nodataval config = PyInt 0.
Proof.
  destruct (raster2pyramid Examples.pyramid_world "rgba.tif" "out"
              (Examples.options_with None (Some "PNG") None))
    as [e | config] eqn:Hrun; [by vm_compute in Hrun |].
  pose proof (output_specification Examples.pyramid_world "rgba.tif" "out"
                (Examples.options_with None (Some "PNG") None) config
                [Examples.uint8_band; Examples.uint8_band;
                 Examples.uint8_band; Examples.uint8_band] Hrun eq_refl)
    as (Hbands & Hpng & Hcapped & _ & Hnodata).
  specialize (Hpng eq_refl).
  destruct Hcapped as (_ & _ & H3 & H8).
  { change (count _) with 4. lia. }
  exists config. by repeat split.
Defined.

Lemma scale_plan_length_witness :
  ∃ config,
    raster2pyramid Examples.pyramid_world "dem.tif" "out"
      (Examples.options_with None (Some "GTiff") None) = inr config
    ∧ scales_minmax config = [].
Proof.
  destruct (raster2pyramid Examples.pyramid_world "dem.tif" "out"
              (Examples.options_with None (Some "GTiff") None))
    as [e | config] eqn:Hrun; [by vm_compute in Hrun |].
  exists config. split; [done |].
  exact (scale_plan_length Examples.pyramid_world "dem.tif" "out"
           (Examples.options_with None (Some "GTiff") None) config
           [Examples.uint16_band; Examples.uint16_band] "uint16"
           Hrun eq_refl eq_refl).
Defined.

Lemma zoom_fields_witness :
  ∃ config,
    raster2pyramid Examples.pyramid_world "dem.tif" "out"
      (Examples.options_with None None (Some [6; 2])) = inr config
    ∧ zoom_levels_min config = 2
    ∧ zoom_levels_max config = 6
    ∧ baselevel_zoom config = 6.
Proof.
  destruct (raster2pyramid Examples.pyramid_world "dem.tif" "out"
              (Examples.options_with None None (Some [6; 2])))
    as [e | config] eqn:Hrun; [by vm_compute in Hrun |].
  pose proof (zoom_fields Examples.pyramid_world "dem.tif" "out"
                (Examples.options_with None None (Some [6; 2])) config Hrun)
    as (Hzooms & Hbase & _ & _).
  change (@inr PyException _ (2, 6)
          = inr (zoom_levels_min config, zoom_levels_max config)) in Hzooms.
  injection Hzooms as Hmin Hmax.
  exists config. rewrite Hbase, <- Hmin, <- Hmax. by repeat split.
Defined.

End PyramidJob.
